(** * TableFormatter: the box-layout engine of [rendering.py]

    A shallow embedding of the block classes of [rendering.py]
    ([Element], [HorizontalLine], [VerticalLine], [Column], [Row]) and of
    [TransportationProblemTableFormatter], followed by the properties the
    specification states about them.

    Conventions of the embedding.
    - Python [int] is [Z]; a repetition count [s * n] or [range(n)] with a
      negative [n] is empty, which is what [Z.to_nat] gives.
    - Python [str] is [string]; one [ascii] stands for one character.
    - A block object is a value of [Block] carrying its [width] and
      [height] attributes.  Every container owns its children (the block
      objects form a tree), so a method that mutates the receiver returns
      the updated block, and a child reached through a reference the caller
      kept is addressed by its path from the root ([at_path]).
    - A method that does not exist on the receiver, or an index out of
      range, is [None]. *)

From stdpp Require Import base option list strings.
From Stdlib Require Import ZArith Lia DecimalString.

Local Open Scope Z_scope.

(** ** Python built-ins used by the module *)

Module Py.

(** [len(s)] *)
Definition len (s : string) : Z := Z.of_nat (String.length s).

(** [s * n] for a string [s] and an integer [n] *)
Fixpoint str_repeat (s : string) (n : nat) : string :=
  match n with
  | O => ""
  | S n' => s +:+ str_repeat s n'
  end.

Definition str_mul (s : string) (n : Z) : string := str_repeat s (Z.to_nat n).

(** [[x] * n] and [[x for i in range(n)]] *)
Definition list_mul {A} (x : A) (n : Z) : list A := replicate (Z.to_nat n) x.

(** [max(l)] of a non-empty list; on the empty list Python raises
    [ValueError]. *)
Definition max (l : list Z) : option Z :=
  match l with
  | [] => None
  | x :: xs => Some (foldl Z.max x xs)
  end.

(** [sum(l)]: a left fold that starts from [0]. *)
Definition sum (l : list Z) : Z := foldl Z.add 0 l.

(** [s.center(width)] with the default fill character, as CPython
    computes it ([unicode_center_impl]): the string is returned unchanged
    when it is at least [width] long, otherwise [marg = width - len(s)]
    spaces are added, [marg // 2 + (marg & width & 1)] of them on the
    left and the rest on the right. *)
Definition center_left (n width : Z) : Z :=
  let marg := width - n in
  marg / 2 + Z.land (Z.land marg width) 1.

Definition center (s : string) (width : Z) : string :=
  if len s >=? width then s
  else
    let marg := width - len s in
    let left := center_left (len s) width in
    str_mul " " left +:+ s +:+ str_mul " " (marg - left).

(** [str(n)] for an integer [n] *)
Definition str_int (n : Z) : string := NilZero.string_of_int (Z.to_int n).

(** [range(n)] *)
Definition range (n : Z) : list Z := map Z.of_nat (seq 0 (Z.to_nat n)).

(** [l[i]] for [0 <= i]; [IndexError] is [None]. *)
Definition index {A} (l : list A) (i : Z) : option A :=
  if i <? 0 then None else l !! Z.to_nat i.

(** ["\n".join(l)] *)
Fixpoint join (sep : string) (l : list string) : string :=
  match l with
  | [] => ""
  | [s] => s
  | s :: rest => s +:+ sep +:+ join sep rest
  end.

(** [enumerate(l)], counting from [start] *)
Fixpoint enumerate_from {A} (start : nat) (l : list A) : list (nat * A) :=
  match l with
  | [] => []
  | x :: rest => (start, x) :: enumerate_from (S start) rest
  end.

Definition enumerate {A} (l : list A) : list (nat * A) := enumerate_from 0 l.

End Py.

(** ** The block classes *)

Definition HORIZONTAL_DELIMITER : string := "-".
Definition VERTICAL_DELIMITER : string := "|".

(** An object of one of the five concrete subclasses of [Block], with its
    attributes: [text] for an [Element], [blocks] for a container, and the
    [width] and [height] that [Block.__init__] sets. *)
#[local] Unset Elimination Schemes.
Inductive Block : Type :=
| Element (text : string) (width height : Z)
| HorizontalLine (width height : Z)
| VerticalLine (width height : Z)
| Column (blocks : list Block) (width height : Z)
| Row (blocks : list Block) (width height : Z).

#[local] Set Elimination Schemes.

Definition width (b : Block) : Z :=
  match b with
  | Element _ w _ | HorizontalLine w _ | VerticalLine w _
  | Column _ w _ | Row _ w _ => w
  end.

Definition height (b : Block) : Z :=
  match b with
  | Element _ _ h | HorizontalLine _ h | VerticalLine _ h
  | Column _ _ h | Row _ _ h => h
  end.

(** The children of a block; a leaf has none. *)
Definition blocks (b : Block) : list Block :=
  match b with
  | Column bs _ _ | Row bs _ _ => bs
  | _ => []
  end.

(** [get_min_width] of each class.  The containers guard the empty child
    list before calling [max] and [sum]. *)
Fixpoint get_min_width (b : Block) : Z :=
  match b with
  | Element text _ _ => Py.len text + 2
  | HorizontalLine _ _ => 0
  | VerticalLine _ _ => 1
  | Column blocks _ _ =>
      match blocks with
      | [] => 0
      | _ => default 0 (Py.max (map get_min_width blocks))
      end
  | Row blocks _ _ =>
      match blocks with
      | [] => 0
      | _ => Py.sum (map get_min_width blocks)
      end
  end.

Fixpoint get_min_height (b : Block) : Z :=
  match b with
  | Element _ _ _ => 1
  | HorizontalLine _ _ => 1
  | VerticalLine _ _ => 0
  | Column blocks _ _ =>
      match blocks with
      | [] => 0
      | _ => Py.sum (map get_min_height blocks)
      end
  | Row blocks _ _ =>
      match blocks with
      | [] => 0
      | _ => default 0 (Py.max (map get_min_height blocks))
      end
  end.

(** [Block.set_width] and [Block.set_height], inherited by every class. *)
Definition set_width (w : Z) (b : Block) : Block :=
  match b with
  | Element t w0 h0 => Element t (Z.max w0 w) h0
  | HorizontalLine w0 h0 => HorizontalLine (Z.max w0 w) h0
  | VerticalLine w0 h0 => VerticalLine (Z.max w0 w) h0
  | Column bs w0 h0 => Column bs (Z.max w0 w) h0
  | Row bs w0 h0 => Row bs (Z.max w0 w) h0
  end.

Definition set_height (h : Z) (b : Block) : Block :=
  match b with
  | Element t w0 h0 => Element t w0 (Z.max h0 h)
  | HorizontalLine w0 h0 => HorizontalLine w0 (Z.max h0 h)
  | VerticalLine w0 h0 => VerticalLine w0 (Z.max h0 h)
  | Column bs w0 h0 => Column bs w0 (Z.max h0 h)
  | Row bs w0 h0 => Row bs w0 (Z.max h0 h)
  end.

(** The block with its two size attributes replaced. *)
Definition with_size (w h : Z) (b : Block) : Block :=
  match b with
  | Element t _ _ => Element t w h
  | HorizontalLine _ _ => HorizontalLine w h
  | VerticalLine _ _ => VerticalLine w h
  | Column bs _ _ => Column bs w h
  | Row bs _ _ => Row bs w h
  end.

(** The constructors: the subclass sets its own attributes, then
    [Block.__init__] sets [width] and [height] to the minimal ones. *)
Definition init (b : Block) : Block :=
  with_size (get_min_width b) (get_min_height b) b.

Definition new_Element (text : string) : Block := init (Element text 0 0).
Definition new_HorizontalLine : Block := init (HorizontalLine 0 0).
Definition new_VerticalLine : Block := init (VerticalLine 0 0).
Definition new_Column : Block := init (Column [] 0 0).
Definition new_Row : Block := init (Row [] 0 0).

(** [Column.add_block] and [Row.add_block]; the leaf classes have no such
    method. *)
Definition add_block (block : Block) (self : Block) : option Block :=
  match self with
  | Column bs w h =>
      let self1 := Column (bs ++ [block]) w h in
      let self2 := set_width (get_min_width self1) self1 in
      Some (set_height (get_min_height self2) self2)
  | Row bs w h =>
      let self1 := Row (bs ++ [block]) w h in
      let self2 := set_width (get_min_width self1) self1 in
      Some (set_height (get_min_height self2) self2)
  | _ => None
  end.

(** ** Rendering: [get_formatted_list] *)

(** [Element.get_formatted_list] for the attributes [text], [width] and
    [height]. *)
Definition Element_lines (text : string) (width height : Z) : list string :=
  let result_lst := [] in
  let indent_above := height / 2 in
  let indent_under := height / 2 in
  let indent_above :=
    if negb (height mod 2 =? 1) then indent_above - 1 else indent_above in
  let result_lst := result_lst ++ Py.list_mul (Py.str_mul " " width) indent_above in
  let result_lst := result_lst ++ [Py.center text width] in
  let result_lst := result_lst ++ Py.list_mul (Py.str_mul " " width) indent_under in
  result_lst.

(** The inner loop of [Row.get_formatted_list]: line [i] of a child is
    appended to [result] when [result] has no entry [i] yet, and is
    otherwise concatenated to the right of [result[i]]. *)
Definition Row_place (result : list string) (il : nat * string) : list string :=
  let '(i, line) := il in
  if (length result <=? i)%nat then result ++ [line]
  else alter (λ s, s +:+ line) i result.

Definition Row_merge (result lines : list string) : list string :=
  foldl Row_place result (Py.enumerate lines).

(** The loops over [self.blocks] of the two containers, for any way
    [render] of setting one dimension of a child and formatting it; they
    return [result] and the children as the loop leaves them. *)
Section Loops.
Variable render : Z → Block → list string * Block.

Fixpoint Column_loop (self_width : Z) (blocks : list Block)
    (result : list string) : list string * list Block :=
  match blocks with
  | [] => (result, [])
  | block :: rest =>
      let '(lines, block') := render self_width block in
      let '(result', rest') := Column_loop self_width rest (result ++ lines) in
      (result', block' :: rest')
  end.

Fixpoint Row_loop (self_height : Z) (blocks : list Block)
    (result : list string) : list string * list Block :=
  match blocks with
  | [] => (result, [])
  | block :: rest =>
      let '(lines, block') := render self_height block in
      let '(result', rest') := Row_loop self_height rest (Row_merge result lines) in
      (result', block' :: rest')
  end.
End Loops.

(** [format_as w h b] is [get_formatted_list] of the block [b] once its
    attributes are [width = w] and [height = h].  A container sets the
    width (a [Column]) or the height (a [Row]) of each child to the maximum
    of the child's and its own before it formats the child, which is what
    [block.set_width(self.width)] followed by
    [block.get_formatted_list()] does; see [format_as_spec],
    [get_formatted_list_Column] and [get_formatted_list_Row]. *)
Fixpoint format_as (w h : Z) (b : Block) : list string * Block :=
  match b with
  | Element text _ _ => (Element_lines text w h, Element text w h)
  | HorizontalLine _ _ =>
      ([Py.str_mul HORIZONTAL_DELIMITER w], HorizontalLine w h)
  | VerticalLine _ _ =>
      (Py.list_mul VERTICAL_DELIMITER h, VerticalLine w h)
  | Column blocks _ _ =>
      let '(result, blocks') :=
        Column_loop
          (λ self_width c, format_as (Z.max (width c) self_width) (height c) c)
          w blocks [] in
      (result, Column blocks' w h)
  | Row blocks _ _ =>
      let '(result, blocks') :=
        Row_loop
          (λ self_height c, format_as (width c) (Z.max (height c) self_height) c)
          h blocks [] in
      (result, Row blocks' w h)
  end.

(** [b.get_formatted_list()]: the lines, and [b] with the sizes its
    descendants have been given. *)
Definition get_formatted_list (b : Block) : list string * Block :=
  format_as (width b) (height b) b.

Definition lines_of (b : Block) : list string := (get_formatted_list b).1.
Definition rendered (b : Block) : Block := (get_formatted_list b).2.

(** [Block.__str__] *)
Definition to_str (b : Block) : string :=
  Py.join "
" (lines_of b).

(** What a container does to one child. *)
Definition Column_child (self_width : Z) (block : Block) : list string * Block :=
  get_formatted_list (set_width self_width block).

Definition Row_child (self_height : Z) (block : Block) : list string * Block :=
  get_formatted_list (set_height self_height block).

(** ** [TransportationProblemTableFormatter] *)

(** A [for] loop whose body updates one variable and may raise. *)
Fixpoint for_each {A S} (body : S → A → option S) (s : S) (l : list A) : option S :=
  match l with
  | [] => Some s
  | x :: rest => s' ← body s x; for_each body s' rest
  end.

(** The formatter is written for any element type [num] of the three
    arrays, with its [str] and the [sum] of a list of elements. *)
Section Formatter.
Context {num : Type}.
Variable str : num → string.
Variable sum : list num → num.

Variable s_array : list num.
Variable c_array : list (list num).
Variable d_array : list num.

Definition _create_source_column : option Block :=
  let source_column := new_Column in
  let source_title := new_Element "Source" in
  let source_title := set_height 3 source_title in
  source_column ← add_block source_title source_column;
  source_column ← add_block new_HorizontalLine source_column;
  source_column ←
    for_each
      (λ source_column i,
         add_block (new_Element ("A" +:+ Py.str_int (i + 1))) source_column)
      source_column (Py.range (Z.of_nat (length s_array)));
  source_column ← add_block new_HorizontalLine source_column;
  source_column ← add_block (new_Element "Demand") source_column;
  Some source_column.

Definition _create_destination_column (i : Z) : option Block :=
  let destination_column := new_Column in
  destination_column ←
    add_block (new_Element ("D" +:+ Py.str_int (i + 1))) destination_column;
  destination_column ← add_block new_HorizontalLine destination_column;
  destination_column ←
    for_each
      (λ destination_column j,
         row ← Py.index c_array j;
         c ← Py.index row i;
         add_block (new_Element (str c)) destination_column)
      destination_column (Py.range (Z.of_nat (length s_array)));
  destination_column ← add_block new_HorizontalLine destination_column;
  d ← Py.index d_array i;
  destination_column ← add_block (new_Element (str d)) destination_column;
  Some destination_column.

Definition _create_destination_table : option Block :=
  let destination_columns := new_Row in
  destination_columns ←
    for_each
      (λ destination_columns i,
         destination_column ← _create_destination_column i;
         add_block destination_column destination_columns)
      destination_columns (Py.range (Z.of_nat (length d_array)));
  let destination_table := new_Column in
  destination_table ← add_block (new_Element "Destination") destination_table;
  destination_table ← add_block new_HorizontalLine destination_table;
  destination_table ← add_block destination_columns destination_table;
  Some destination_table.

Definition _create_supply_column : option Block :=
  let supply_column := new_Column in
  let supply_title := new_Element "Supply" in
  let supply_title := set_height 3 supply_title in
  supply_column ← add_block supply_title supply_column;
  supply_column ← add_block new_HorizontalLine supply_column;
  supply_column ←
    for_each
      (λ supply_column i,
         s ← Py.index s_array i;
         add_block (new_Element (str s)) supply_column)
      supply_column (Py.range (Z.of_nat (length s_array)));
  supply_column ← add_block new_HorizontalLine supply_column;
  supply_column ← add_block (new_Element (str (sum s_array))) supply_column;
  Some supply_column.

Definition _create_table : option Block :=
  source_column ← _create_source_column;
  destination_table ← _create_destination_table;
  supply_column ← _create_supply_column;
  let table := new_Row in
  table ← add_block new_VerticalLine table;
  table ← add_block source_column table;
  table ← add_block new_VerticalLine table;
  table ← add_block destination_table table;
  table ← add_block new_VerticalLine table;
  table ← add_block supply_column table;
  table ← add_block new_VerticalLine table;
  let table_with_horizontal_lines := new_Column in
  table_with_horizontal_lines ←
    add_block new_HorizontalLine table_with_horizontal_lines;
  table_with_horizontal_lines ← add_block table table_with_horizontal_lines;
  table_with_horizontal_lines ←
    add_block new_HorizontalLine table_with_horizontal_lines;
  Some table_with_horizontal_lines.

(** [format()] returns [self.table] after [_create_table] has set it. *)
Definition format : option Block := _create_table.
End Formatter.

(** The arrays of the example hold floats with integral values.  For such
    a float below [10 ^ 16] Python's [str] prints the integer followed by
    [.0], and the sum of a few of them is exact; [IntegralFloat] keeps the
    integer. *)
Module IntegralFloat.
Definition t := Z.
Definition str (x : t) : string := Py.str_int x +:+ ".0".
Definition sum (l : list t) : t := foldl Z.add 0 l.
End IntegralFloat.

Definition example_s_array : list IntegralFloat.t := [140; 180; 160].
Definition example_c_array : list (list IntegralFloat.t) :=
  [[2; 3; 4; 2; 4]; [8; 4; 1; 4; 1]; [9; 7; 3; 7; 2]].
Definition example_d_array : list IntegralFloat.t := [60; 70; 120; 130; 100].

Definition example_table : option Block :=
  format IntegralFloat.str IntegralFloat.sum
    example_s_array example_c_array example_d_array.

(** The table of the module docstring, line by line. *)
Definition docstring_table : list string :=
  [ "-----------------------------------------------------";
    "|        |           Destination           |        |";
    "| Source |---------------------------------| Supply |";
    "|        |  D1    D2     D3     D4     D5  |        |";
    "|--------|---------------------------------|--------|";
    "|   A1   | 2.0   3.0    4.0    2.0    4.0  | 140.0  |";
    "|   A2   | 8.0   4.0    1.0    4.0    1.0  | 180.0  |";
    "|   A3   | 9.0   7.0    3.0    7.0    2.0  | 160.0  |";
    "|--------|---------------------------------|--------|";
    "| Demand | 60.0  70.0  120.0  130.0  100.0 | 480.0  |";
    "-----------------------------------------------------" ].

(** * The vocabulary of the properties *)

(** The maximum of a list as the specification words it: [0] for the
    empty list, otherwise an element that no element exceeds. *)
Definition maximum_of (l : list Z) (m : Z) : Prop :=
  match l with
  | [] => m = 0
  | _ => m ∈ l ∧ Forall (λ x, x ≤ m) l
  end.

(** The sum of a list, from the right. *)
Definition total (l : list Z) : Z := foldr Z.add 0 l.

(** Two lists of lines side by side: line [i] of the result is line [i] of
    [a] followed by line [i] of [b], or the one of them that exists. *)
Fixpoint beside (a b : list string) : list string :=
  match a, b with
  | [], _ => b
  | _, [] => a
  | x :: a', y :: b' => (x +:+ y) :: beside a' b'
  end.

(** The concatenation of a list of strings, in order. *)
Definition str_concat (l : list string) : string := foldr String.append "" l.

(** The lines are [h], each [w] characters long. *)
Definition rectangle (w h : Z) (lines : list string) : Prop :=
  Z.of_nat (length lines) = h ∧ Forall (λ line, Py.len line = w) lines.

(** [fits w h b]: the block [b], with the size [w] by [h], formats to a
    [w] by [h] rectangle by construction.  An [Element] is no narrower
    than its text and at least one line high; a [HorizontalLine] has
    height [1] and a [VerticalLine] width [1]; a [Column] is as high as
    its children together, none of which is wider than it, each fitting
    the column's width; a [Row] is as wide as its children together, none
    of which is higher than it, each fitting the row's height. *)
Fixpoint fits (w h : Z) (b : Block) : bool :=
  match b with
  | Element text _ _ => bool_decide (Py.len text ≤ w) && bool_decide (1 ≤ h)
  | HorizontalLine _ _ => bool_decide (0 ≤ w) && bool_decide (h = 1)
  | VerticalLine _ _ => bool_decide (w = 1) && bool_decide (0 ≤ h)
  | Column bs _ _ =>
      bool_decide (h = total (height <$> bs))
      && forallb (λ c, bool_decide (width c ≤ w) && fits w (height c) c) bs
  | Row bs _ _ =>
      bool_decide (w = total (width <$> bs))
      && bool_decide (bs = [] → h = 0)
      && forallb (λ c, bool_decide (height c ≤ h) && fits (width c) h c) bs
  end.

Definition tight (b : Block) : bool := fits (width b) (height b) b.

(** [at_path f p b]: the method [f] called on the descendant of [b] that
    the indices [p] lead to, the tree around it unchanged. *)
Fixpoint at_path (f : Block → option Block) (p : list nat) (b : Block) : option Block :=
  match p with
  | [] => f b
  | i :: p' =>
      match b with
      | Column bs w h =>
          c ← bs !! i; c' ← at_path f p' c; Some (Column (<[i:=c']> bs) w h)
      | Row bs w h =>
          c ← bs !! i; c' ← at_path f p' c; Some (Row (<[i:=c']> bs) w h)
      | _ => None
      end
  end.

(** The calls that change a block. *)
Inductive Call : Type :=
| Call_set_width (w : Z)
| Call_set_height (h : Z)
| Call_add_block (block : Block)
| Call_get_formatted_list.

Definition call (c : Call) (self : Block) : option Block :=
  match c with
  | Call_set_width w => Some (set_width w self)
  | Call_set_height h => Some (set_height h self)
  | Call_add_block block => add_block block self
  | Call_get_formatted_list => Some (rendered self)
  end.

(** A block as its constructor returns it. *)
Inductive fresh : Block → Prop :=
| fresh_Element text : fresh (new_Element text)
| fresh_HorizontalLine : fresh new_HorizontalLine
| fresh_VerticalLine : fresh new_VerticalLine
| fresh_Column : fresh new_Column
| fresh_Row : fresh new_Row.

(** The trees a program can build: a fresh block, or a tree after a call
    on any of its blocks; a block that is added is itself such a tree. *)
Inductive reachable : Block → Prop :=
| reachable_fresh b : fresh b → reachable b
| reachable_call p c b b' :
    reachable b →
    (∀ block, c = Call_add_block block → reachable block) →
    at_path (call c) p b = Some b' →
    reachable b'.

(** The trees built bottom-up: as [reachable], but [add_block] is called
    on the root only, never on a container that has been added to another
    one. *)
Inductive bottom_up : Block → Prop :=
| bottom_up_fresh b : fresh b → bottom_up b
| bottom_up_call p c b b' :
    bottom_up b →
    (∀ block, c = Call_add_block block → p = []) →
    (∀ block, c = Call_add_block block → bottom_up block) →
    at_path (call c) p b = Some b' →
    bottom_up b'.

(** The size of a block is at least its minimal size, and so it is for
    each of its descendants. *)
Definition sized (b : Block) : bool :=
  bool_decide (get_min_width b ≤ width b)
  && bool_decide (get_min_height b ≤ height b).

Fixpoint well_sized (b : Block) : bool :=
  sized b &&
  match b with
  | Column bs _ _ | Row bs _ _ => forallb well_sized bs
  | _ => true
  end.

(** A method that leaves the minimal size of its receiver alone and keeps
    it well sized. *)
Definition keeps_sizes (f : Block → option Block) : Prop :=
  ∀ b b', f b = Some b' →
    get_min_width b' = get_min_width b
    ∧ get_min_height b' = get_min_height b
    ∧ (well_sized b = true → well_sized b' = true).

(** The block is a [Column] or a [Row]. *)
Definition is_container (b : Block) : bool :=
  match b with
  | Column _ _ _ | Row _ _ _ => true
  | _ => false
  end.


(** The number of characters of the lines together. *)
Definition total_len (lines : list string) : Z := total (Py.len <$> lines).

(** A leaf as the table formatter adds it to a column: an [Element] of its
    minimal width, or a [HorizontalLine] as constructed. *)
Definition cell (b : Block) : bool :=
  match b with
  | Element text w h => bool_decide (w = Py.len text + 2) && bool_decide (1 ≤ h)
  | HorizontalLine w h => bool_decide (w = 0) && bool_decide (h = 1)
  | _ => false
  end.

(** [c_array[j][i]] *)
Definition cost {num} (c_array : list (list num)) (j i : Z) : option num :=
  row ← Py.index c_array j; Py.index row i.

(** A column as the formatter builds it from [k] cells whose heights sum
    to [h]: only [add_block] has been called on it. *)
Definition cells_column (k h : Z) (col : Block) : Prop :=
  ∃ cells,
    col = init (Column cells 0 0)
    ∧ Forall (λ b, cell b = true) cells
    ∧ Z.of_nat (length cells) = k
    ∧ total (height <$> cells) = h.

(** * Properties *)

(** ** Induction over a block and its descendants *)

Section Block_induction.
Variable P : Block → Prop.
Hypothesis case_Element : ∀ t w h, P (Element t w h).
Hypothesis case_HorizontalLine : ∀ w h, P (HorizontalLine w h).
Hypothesis case_VerticalLine : ∀ w h, P (VerticalLine w h).
Hypothesis case_Column : ∀ bs w h, Forall P bs → P (Column bs w h).
Hypothesis case_Row : ∀ bs w h, Forall P bs → P (Row bs w h).

Fixpoint Block_ind (b : Block) : P b :=
  let children :=
    fix children (bs : list Block) : Forall P bs :=
      match bs with
      | [] => @List.Forall_nil Block P
      | c :: rest => @List.Forall_cons Block P c rest (Block_ind c) (children rest)
      end in
  match b with
  | Element t w h => case_Element t w h
  | HorizontalLine w h => case_HorizontalLine w h
  | VerticalLine w h => case_VerticalLine w h
  | Column bs w h => case_Column bs w h (children bs)
  | Row bs w h => case_Row bs w h (children bs)
  end.
End Block_induction.

(** ** Strings and the built-ins *)

Lemma append_String (a : Ascii.ascii) (s1 s2 : string) :
  String a s1 +:+ s2 = String a (s1 +:+ s2).
Proof. reflexivity. Qed.

Lemma append_empty_l (s : string) : "" +:+ s = s.
Proof. reflexivity. Qed.

Lemma length_append (s1 s2 : string) :
  String.length (s1 +:+ s2) = (String.length s1 + String.length s2)%nat.
Proof.
  induction s1 as [|a s1 IH]; [done |].
  rewrite append_String. simpl. by rewrite IH.
Qed.

Lemma append_empty_r (s : string) : s +:+ "" = s.
Proof.
  induction s as [|a s IH]; [done |]. by rewrite append_String, IH.
Qed.

Lemma len_append (s1 s2 : string) : Py.len (s1 +:+ s2) = Py.len s1 + Py.len s2.
Proof. unfold Py.len. rewrite length_append. lia. Qed.

Lemma length_str_repeat (s : string) (n : nat) :
  String.length (Py.str_repeat s n) = (n * String.length s)%nat.
Proof. induction n as [|n IH]; simpl; [done | rewrite length_append, IH; lia]. Qed.

Lemma len_str_mul_char (c : string) (n : Z) :
  String.length c = 1%nat → Py.len (Py.str_mul c n) = Z.max 0 n.
Proof.
  intros Hc. unfold Py.len, Py.str_mul. rewrite length_str_repeat, Hc. lia.
Qed.

Lemma foldl_max_le (x : Z) (l : list Z) : x ≤ foldl Z.max x l.
Proof.
  revert x. induction l as [|y l IH]; intros x; simpl; [lia |].
  specialize (IH (Z.max x y)). lia.
Qed.

Lemma foldl_max_upper (x : Z) (l : list Z) : Forall (λ y, y ≤ foldl Z.max x l) l.
Proof.
  revert x. induction l as [|y l IH]; intros x; simpl; constructor.
  - pose proof (foldl_max_le (Z.max x y) l). lia.
  - apply IH.
Qed.

Lemma foldl_max_attained (x : Z) (l : list Z) :
  foldl Z.max x l = x ∨ foldl Z.max x l ∈ l.
Proof.
  revert x. induction l as [|y l IH]; intros x; simpl; [by left |].
  destruct (IH (Z.max x y)) as [H | H].
  - rewrite H. destruct (Z.max_spec x y) as [[_ ->] | [_ ->]];
      [right; left | by left].
  - right. by right.
Qed.

Lemma foldl_add_shift (x : Z) (l : list Z) : foldl Z.add x l = x + foldr Z.add 0 l.
Proof.
  revert x. induction l as [|y l IH]; intros x; simpl; [lia |].
  rewrite IH. lia.
Qed.

Lemma Py_sum_foldr (l : list Z) : Py.sum l = foldr Z.add 0 l.
Proof. unfold Py.sum. rewrite foldl_add_shift. lia. Qed.

Lemma mod_2_odd (a : Z) : a mod 2 = if Z.odd a then 1 else 0.
Proof. rewrite <- Z.bit0_mod, Z.bit0_odd. by destruct (Z.odd a). Qed.

(** The low bit that [center] adds on the left. *)
Lemma land_land_1 (m w : Z) :
  Z.land (Z.land m w) 1 = if Z.odd m && Z.odd w then 1 else 0.
Proof.
  change 1 with (Z.ones 1) at 1. rewrite Z.land_ones by lia.
  change (2 ^ 1) with 2. rewrite <- Z.bit0_mod, Z.land_spec, !Z.bit0_odd.
  by destruct (Z.odd m), (Z.odd w).
Qed.

Lemma center_left_range (n w : Z) :
  n ≤ w → 0 ≤ Py.center_left n w ≤ w - n.
Proof.
  intros Hle. unfold Py.center_left. rewrite land_land_1.
  pose proof (Z.div_mod (w - n) 2 ltac:(lia)) as Hdm.
  pose proof (Z.mod_pos_bound (w - n) 2 ltac:(lia)) as Hm.
  rewrite mod_2_odd in Hdm.
  destruct (Z.odd (w - n)), (Z.odd w); simpl; lia.
Qed.

Lemma center_split (s : string) (w : Z) :
  Py.len s ≤ w →
  Py.center s w =
    Py.str_mul " " (Py.center_left (Py.len s) w) +:+ s
    +:+ Py.str_mul " " (w - Py.len s - Py.center_left (Py.len s) w).
Proof.
  intros Hle. unfold Py.center.
  destruct (Py.len s >=? w) eqn:Hge; [| done].
  assert (Py.len s = w) as Heq by lia.
  assert (Py.center_left (Py.len s) w = 0) as ->.
  { unfold Py.center_left. rewrite Heq, Z.sub_diag. done. }
  rewrite Heq, Z.sub_diag. simpl. by rewrite append_empty_r.
Qed.

Lemma len_center (s : string) (w : Z) : Py.len (Py.center s w) = Z.max (Py.len s) w.
Proof.
  unfold Py.center. destruct (Py.len s >=? w) eqn:Hge; [lia |].
  pose proof (center_left_range (Py.len s) w ltac:(lia)).
  rewrite !len_append, !len_str_mul_char by done. lia.
Qed.

(** ** Sizes: [set_width], [set_height] and the minimal sizes *)

Lemma width_set_width w b : width (set_width w b) = Z.max (width b) w.
Proof. by destruct b. Qed.

Lemma height_set_width w b : height (set_width w b) = height b.
Proof. by destruct b. Qed.

Lemma width_set_height h b : width (set_height h b) = width b.
Proof. by destruct b. Qed.

Lemma height_set_height h b : height (set_height h b) = Z.max (height b) h.
Proof. by destruct b. Qed.

Lemma set_width_with_size w b :
  set_width w b = with_size (Z.max (width b) w) (height b) b.
Proof. by destruct b. Qed.

Lemma set_height_with_size h b :
  set_height h b = with_size (width b) (Z.max (height b) h) b.
Proof. by destruct b. Qed.

Lemma with_size_id b : with_size (width b) (height b) b = b.
Proof. by destruct b. Qed.

Lemma get_min_width_with_size w h b :
  get_min_width (with_size w h b) = get_min_width b.
Proof. by destruct b. Qed.

Lemma get_min_height_with_size w h b :
  get_min_height (with_size w h b) = get_min_height b.
Proof. by destruct b. Qed.

Lemma foldl_max_maximum_of (x : Z) (l : list Z) :
  maximum_of (x :: l) (foldl Z.max x l).
Proof.
  split.
  - destruct (foldl_max_attained x l) as [-> | H]; [left | by right].
  - constructor; [apply foldl_max_le | apply foldl_max_upper].
Qed.

Lemma get_min_width_Column bs w h :
  maximum_of (get_min_width <$> bs) (get_min_width (Column bs w h)).
Proof. destruct bs; [done |]. apply foldl_max_maximum_of. Qed.

Lemma get_min_height_Row bs w h :
  maximum_of (get_min_height <$> bs) (get_min_height (Row bs w h)).
Proof. destruct bs; [done |]. apply foldl_max_maximum_of. Qed.

Lemma get_min_width_Row bs w h :
  get_min_width (Row bs w h) = total (get_min_width <$> bs).
Proof. destruct bs; [done |]. cbn -[Py.sum]. apply Py_sum_foldr. Qed.

Lemma get_min_height_Column bs w h :
  get_min_height (Column bs w h) = total (get_min_height <$> bs).
Proof. destruct bs; [done |]. cbn -[Py.sum]. apply Py_sum_foldr. Qed.

(** C4. The minimal width of a [Column] is the maximum of its children's
    minimal widths ([0] without children) and its minimal height is the sum
    of their minimal heights; for a [Row] the minimal width is the sum and
    the minimal height the maximum ([0] without children). *)
Theorem container_min_sizes (bs : list Block) (w h : Z) :
  maximum_of (get_min_width <$> bs) (get_min_width (Column bs w h))
  ∧ get_min_height (Column bs w h) = total (get_min_height <$> bs)
  ∧ get_min_width (Row bs w h) = total (get_min_width <$> bs)
  ∧ maximum_of (get_min_height <$> bs) (get_min_height (Row bs w h)).
Proof.
  split_and!.
  - apply get_min_width_Column.
  - apply get_min_height_Column.
  - apply get_min_width_Row.
  - apply get_min_height_Row.
Qed.

(** C5. [set_width(w)] sets [width] to [max(width, w)] and touches nothing
    else, and [set_height(h)] does the same for [height]; a value that does
    not exceed the current size leaves the block as it is, the size never
    decreases, and a repeated call changes nothing more. *)
Theorem set_size_max (b : Block) (w h : Z) :
  (set_width w b = with_size (Z.max (width b) w) (height b) b
   ∧ set_height h b = with_size (width b) (Z.max (height b) h) b)
  ∧ (width (set_width w b) = Z.max (width b) w
     ∧ height (set_height h b) = Z.max (height b) h)
  ∧ ((w ≤ width b → set_width w b = b) ∧ (h ≤ height b → set_height h b = b))
  ∧ (width b ≤ width (set_width w b) ∧ height b ≤ height (set_height h b))
  ∧ (set_width w (set_width w b) = set_width w b
     ∧ set_height h (set_height h b) = set_height h b).
Proof.
  split_and!.
  - apply set_width_with_size.
  - apply set_height_with_size.
  - apply width_set_width.
  - apply height_set_height.
  - intros Hle. rewrite set_width_with_size, Z.max_l by done. apply with_size_id.
  - intros Hle. rewrite set_height_with_size, Z.max_l by done. apply with_size_id.
  - rewrite width_set_width. lia.
  - rewrite height_set_height. lia.
  - destruct b; simpl; f_equal; lia.
  - destruct b; simpl; f_equal; lia.
Qed.

Lemma set_size_max_witness :
  set_width 3 (Element "ab" 4 1) = Element "ab" 4 1
  ∧ set_height 1 (Column [] 0 2) = Column [] 0 2.
Proof.
  destruct (set_size_max (Element "ab" 4 1) 3 1) as (_ & _ & [Hw _] & _).
  destruct (set_size_max (Column [] 0 2) 0 1) as (_ & _ & [_ Hh] & _).
  split; [apply Hw | apply Hh]; simpl; lia.
Defined.

(** ** The loops of the containers *)

Lemma beside_nil_r a : beside a [] = a.
Proof. by destruct a. Qed.

Lemma Row_place_from (k : nat) (result lines : list string) :
  (k ≤ length result)%nat →
  foldl Row_place result (Py.enumerate_from k lines) =
  take k result ++ beside (drop k result) lines.
Proof.
  revert k result. induction lines as [|line lines IH]; intros k result Hk.
  - simpl. by rewrite beside_nil_r, take_drop.
  - simpl. destruct (length result <=? k)%nat eqn:Hlen.
    + apply Nat.leb_le in Hlen.
      rewrite IH by (rewrite length_app; simpl; lia).
      rewrite take_ge, drop_ge by (rewrite ?length_app; simpl; lia).
      rewrite take_ge, drop_ge by lia. simpl. by rewrite <- app_assoc.
    + apply Nat.leb_gt in Hlen.
      destruct (lookup_lt_is_Some_2 result k Hlen) as [x Hx].
      rewrite IH by (rewrite length_alter; lia).
      rewrite (drop_S result x k Hx). simpl.
      rewrite (take_S_r _ _ (x +:+ line)), <- app_assoc; last first.
      { by rewrite list_lookup_alter_eq, Hx. }
      rewrite take_alter_ge by lia. simpl. do 2 f_equal.
      rewrite drop_alter_lt by lia. done.
Qed.

Lemma Row_merge_beside result lines : Row_merge result lines = beside result lines.
Proof. unfold Row_merge, Py.enumerate. by rewrite Row_place_from by lia. Qed.

Section Loop_facts.
Variable render : Z → Block → list string * Block.

Lemma Column_loop_map w bs result :
  Column_loop render w bs result =
  (result ++ concat ((λ c, (render w c).1) <$> bs), (λ c, (render w c).2) <$> bs).
Proof.
  revert result. induction bs as [|c bs IH]; intros result; simpl.
  - by rewrite app_nil_r.
  - destruct (render w c) as [lines c'] eqn:Hc. rewrite IH. simpl.
    by rewrite app_assoc.
Qed.

Lemma Row_loop_map h bs result :
  Row_loop render h bs result =
  (foldl beside result ((λ c, (render h c).1) <$> bs), (λ c, (render h c).2) <$> bs).
Proof.
  revert result. induction bs as [|c bs IH]; intros result; simpl; [done |].
  destruct (render h c) as [lines c'] eqn:Hc. rewrite IH. simpl.
  by rewrite Row_merge_beside.
Qed.
End Loop_facts.

Lemma Column_loop_ext f g w bs result :
  (∀ c, f w c = g w c) → Column_loop f w bs result = Column_loop g w bs result.
Proof.
  intros Hfg. revert result. induction bs as [|c bs IH]; intros result; simpl;
    [done |].
  rewrite Hfg. destruct (g w c). by rewrite IH.
Qed.

Lemma Row_loop_ext f g h bs result :
  (∀ c, f h c = g h c) → Row_loop f h bs result = Row_loop g h bs result.
Proof.
  intros Hfg. revert result. induction bs as [|c bs IH]; intros result; simpl;
    [done |].
  rewrite Hfg. destruct (g h c). by rewrite IH.
Qed.

(** ** [get_formatted_list] as the source writes it *)

Lemma format_as_spec w h b : format_as w h b = get_formatted_list (with_size w h b).
Proof. by destruct b. Qed.

Lemma Column_child_format_as w c :
  format_as (Z.max (width c) w) (height c) c = Column_child w c.
Proof. by destruct c. Qed.

Lemma Row_child_format_as h c :
  format_as (width c) (Z.max (height c) h) c = Row_child h c.
Proof. by destruct c. Qed.

Lemma get_formatted_list_Element text w h :
  get_formatted_list (Element text w h) = (Element_lines text w h, Element text w h).
Proof. reflexivity. Qed.

Lemma get_formatted_list_HorizontalLine w h :
  get_formatted_list (HorizontalLine w h) =
  ([Py.str_mul HORIZONTAL_DELIMITER w], HorizontalLine w h).
Proof. reflexivity. Qed.

Lemma get_formatted_list_VerticalLine w h :
  get_formatted_list (VerticalLine w h) =
  (Py.list_mul VERTICAL_DELIMITER h, VerticalLine w h).
Proof. reflexivity. Qed.

(** For each block of [self.blocks]: [block.set_width(self.width)], then
    [result += block.get_formatted_list()]. *)
Lemma get_formatted_list_Column bs w h :
  get_formatted_list (Column bs w h) =
  let '(result, bs') := Column_loop Column_child w bs [] in
  (result, Column bs' w h).
Proof.
  unfold get_formatted_list. simpl.
  by rewrite (Column_loop_ext _ Column_child) by apply Column_child_format_as.
Qed.

(** For each block of [self.blocks]: [block.set_height(self.height)], then
    the lines of [block.get_formatted_list()] are placed into [result]. *)
Lemma get_formatted_list_Row bs w h :
  get_formatted_list (Row bs w h) =
  let '(result, bs') := Row_loop Row_child h bs [] in
  (result, Row bs' w h).
Proof.
  unfold get_formatted_list. simpl.
  by rewrite (Row_loop_ext _ Row_child) by apply Row_child_format_as.
Qed.

Lemma lines_of_Column bs w h :
  lines_of (Column bs w h) = concat ((λ c, lines_of (set_width w c)) <$> bs).
Proof.
  unfold lines_of at 1. by rewrite get_formatted_list_Column, Column_loop_map.
Qed.

Lemma rendered_Column bs w h :
  rendered (Column bs w h) = Column ((λ c, rendered (set_width w c)) <$> bs) w h.
Proof.
  unfold rendered at 1. by rewrite get_formatted_list_Column, Column_loop_map.
Qed.

Lemma lines_of_Row bs w h :
  lines_of (Row bs w h) = foldl beside [] ((λ c, lines_of (set_height h c)) <$> bs).
Proof.
  unfold lines_of at 1. by rewrite get_formatted_list_Row, Row_loop_map.
Qed.

Lemma rendered_Row bs w h :
  rendered (Row bs w h) = Row ((λ c, rendered (set_height h c)) <$> bs) w h.
Proof.
  unfold rendered at 1. by rewrite get_formatted_list_Row, Row_loop_map.
Qed.

Lemma width_rendered b : width (rendered b) = width b.
Proof.
  destruct b; try done.
  - by rewrite rendered_Column.
  - by rewrite rendered_Row.
Qed.

Lemma height_rendered b : height (rendered b) = height b.
Proof.
  destruct b; try done.
  - by rewrite rendered_Column.
  - by rewrite rendered_Row.
Qed.

(** ** The model on small inputs *)

Example Element_X_width_5 : lines_of (set_width 5 (new_Element "X")) = ["  X  "].
Proof. reflexivity. Qed.

Example Element_X_width_6 : lines_of (set_width 6 (new_Element "X")) = ["  X   "].
Proof. reflexivity. Qed.

Example Element_X_height_4 :
  lines_of (set_height 4 (new_Element "X")) = ["   "; " X "; "   "; "   "].
Proof. reflexivity. Qed.

Example empty_containers :
  get_formatted_list new_Column = ([], Column [] 0 0)
  ∧ get_formatted_list new_Row = ([], Row [] 0 0).
Proof. split; reflexivity. Qed.

Example Row_of_VerticalLines :
  (row ← add_block new_VerticalLine new_Row;
   row ← add_block new_VerticalLine row;
   Some (lines_of (set_height 2 row))) = Some ["||"; "||"].
Proof. reflexivity. Qed.

Example Column_of_HorizontalLines :
  (column ← add_block new_HorizontalLine new_Column;
   column ← add_block new_HorizontalLine column;
   Some (lines_of (set_width 3 column))) = Some ["---"; "---"].
Proof. reflexivity. Qed.

Example add_block_on_a_leaf : add_block new_VerticalLine (new_Element "X") = None.
Proof. reflexivity. Qed.

(** ** The lines of an [Element] *)

Lemma lines_of_Element text w h :
  lines_of (Element text w h) =
  replicate (Z.to_nat (if Z.odd h then h / 2 else h / 2 - 1)) (Py.str_mul " " w)
  ++ [Py.center text w]
  ++ replicate (Z.to_nat (h / 2)) (Py.str_mul " " w).
Proof.
  unfold lines_of. simpl. unfold Element_lines, Py.list_mul.
  rewrite mod_2_odd, <- app_assoc. by destruct (Z.odd h).
Qed.

Lemma above_under_sum (h : Z) :
  1 ≤ h →
  0 ≤ (if Z.odd h then h / 2 else h / 2 - 1)
  ∧ (if Z.odd h then h / 2 else h / 2 - 1) + 1 + h / 2 = h.
Proof.
  intros Hh. pose proof (Z.div_mod h 2 ltac:(lia)) as Hdm.
  rewrite mod_2_odd in Hdm. destruct (Z.odd h); lia.
Qed.

Lemma Element_text_line text w h :
  1 ≤ h →
  lines_of (Element text w h) !! Z.to_nat (if Z.odd h then h / 2 else h / 2 - 1)
  = Some (Py.center text w).
Proof.
  intros Hh. destruct (above_under_sum h Hh) as [Habove _].
  rewrite lines_of_Element.
  rewrite lookup_app_r by (rewrite length_replicate; lia).
  by rewrite length_replicate, Nat.sub_diag.
Qed.

(** C6. An [Element] of height [h >= 1] is formatted as [above] blank
    lines, the centred text, and [under] blank lines, with
    [above = under = h // 2] for an odd [h] and [above = h // 2 - 1],
    [under = h // 2] for an even one; the lines are [h] in all, and with
    height [4] the text is line [1], one blank line above it and two
    below. *)
Theorem Element_vertical_centering (text : string) (w h : Z) :
  1 ≤ h →
  let blank := Py.str_mul " " w in
  let above := if Z.odd h then h / 2 else h / 2 - 1 in
  let under := h / 2 in
  lines_of (Element text w h) =
    replicate (Z.to_nat above) blank ++ [Py.center text w]
    ++ replicate (Z.to_nat under) blank
  ∧ 0 ≤ above ∧ 0 ≤ under
  ∧ lines_of (Element text w h) !! Z.to_nat above = Some (Py.center text w)
  ∧ Z.of_nat (length (lines_of (Element text w h))) = h
  ∧ lines_of (Element text w 4) = [blank; Py.center text w; blank; blank].
Proof.
  intros Hh blank above under.
  destruct (above_under_sum h Hh) as [Habove Hsum].
  assert (0 ≤ h / 2) by (apply Z.div_pos; lia).
  split_and!; try done.
  - apply lines_of_Element.
  - by apply Element_text_line.
  - rewrite lines_of_Element, !length_app, !length_replicate. simpl. lia.
Qed.

Lemma Element_vertical_centering_witness :
  1 ≤ 4
  ∧ lines_of (Element "X" 3 4) = ["   "; " X "; "   "; "   "]
  ∧ lines_of (Element "X" 3 4) !! 1%nat = Some " X ".
Proof.
  assert (1 ≤ 4) as Hh by lia.
  destruct (Element_vertical_centering "X" 3 4 Hh)
    as (Hlines & _ & _ & Hline & _).
  split_and!; [exact Hh | exact Hlines | exact Hline].
Defined.

(** C7, as the code has it. The text line of an [Element] whose width is at
    least the length of its text is the text with [left] spaces before it
    and [right] spaces after it, [left + right = width - len(text)]; the
    two are equal when [width - len(text)] is even, and when it is odd the
    extra space is on the right for an even [width] and on the left for an
    odd [width]. *)
Theorem Element_horizontal_centering (text : string) (w h : Z) :
  Py.len text ≤ w →
  1 ≤ h →
  let marg := w - Py.len text in
  let left := Py.center_left (Py.len text) w in
  let right := marg - left in
  lines_of (Element text w h) !! Z.to_nat (if Z.odd h then h / 2 else h / 2 - 1)
    = Some (Py.str_mul " " left +:+ text +:+ Py.str_mul " " right)
  ∧ 0 ≤ left ∧ 0 ≤ right
  ∧ (Z.odd marg = false → left = marg / 2 ∧ right = marg / 2)
  ∧ (Z.odd marg = true → Z.odd w = false → left = marg / 2 ∧ right = marg / 2 + 1)
  ∧ (Z.odd marg = true → Z.odd w = true → left = marg / 2 + 1 ∧ right = marg / 2).
Proof.
  intros Hlen Hh marg left right.
  pose proof (Element_text_line text w h Hh) as Hline.
  pose proof (center_left_range (Py.len text) w Hlen) as Hrange.
  pose proof (Z.div_mod marg 2 ltac:(lia)) as Hdm. rewrite mod_2_odd in Hdm.
  assert (left = marg / 2 + if Z.odd marg && Z.odd w then 1 else 0) as Hleft.
  { subst left. unfold Py.center_left. by rewrite land_land_1. }
  split_and!.
  - rewrite Hline. f_equal. by apply center_split.
  - subst left. lia.
  - subst right left. lia.
  - intros Hodd. rewrite Hodd in Hdm, Hleft. simpl in Hleft. subst right. lia.
  - intros Hodd Hw. rewrite Hodd in Hdm. rewrite Hodd, Hw in Hleft.
    simpl in Hleft. subst right. lia.
  - intros Hodd Hw. rewrite Hodd in Hdm. rewrite Hodd, Hw in Hleft.
    simpl in Hleft. subst right. lia.
Qed.

Lemma Element_horizontal_centering_witness :
  (Py.len "X" ≤ 6 ∧ 1 ≤ 1)
  ∧ lines_of (Element "X" 6 1) !! 0%nat = Some "  X   "
  ∧ lines_of (Element "D3" 7 1) !! 0%nat = Some "   D3  ".
Proof.
  assert (Py.len "X" ≤ 6) as HX by (vm_compute; discriminate).
  assert (Py.len "D3" ≤ 7) as HD by (vm_compute; discriminate).
  assert (1 ≤ 1) as Hh by lia.
  split_and!; [exact HX | exact Hh | |].
  - destruct (Element_horizontal_centering "X" 6 1 HX Hh) as [H _]. exact H.
  - destruct (Element_horizontal_centering "D3" 7 1 HD Hh) as [H _]. exact H.
Defined.

(** C7 as stated fails: the label ["D3"] of the docstring's table, in its
    column of width [7], has an odd number [5] of padding spaces, and the
    extra one is on the left, not on the right. *)
Lemma Element_extra_space_not_right :
  let cell := set_width 7 (new_Element "D3") in
  Py.len "D3" ≤ width cell
  ∧ Z.odd (width cell - Py.len "D3") = true
  ∧ lines_of cell = ["   D3  "]
  ∧ lines_of cell ≠ [Py.str_mul " " 2 +:+ "D3" +:+ Py.str_mul " " 3].
Proof. vm_compute. split_and!; done. Qed.

(** ** Lines placed side by side *)

Lemma append_assoc (s1 s2 s3 : string) : (s1 +:+ s2) +:+ s3 = s1 +:+ s2 +:+ s3.
Proof.
  induction s1 as [|a s1 IH]; [done |]. by rewrite !append_String, IH.
Qed.

Lemma length_beside a b : length (beside a b) = Nat.max (length a) (length b).
Proof.
  revert b. induction a as [|x a IH]; intros [|y b]; simpl; try done.
  by rewrite IH.
Qed.

Lemma lookup_beside a b (i : nat) :
  beside a b !! i =
  match a !! i, b !! i with
  | Some x, Some y => Some (x +:+ y)
  | Some x, None => Some x
  | None, o => o
  end.
Proof.
  revert b i. induction a as [|x a IH]; intros [|y b] [|i]; simpl; try done.
  by destruct (a !! i).
Qed.

Lemma length_foldl_beside r (lss : list (list string)) :
  length (foldl beside r lss) = Nat.max (length r) (max_list (length <$> lss)).
Proof.
  revert r. induction lss as [|ls lss IH]; intros r; simpl.
  - by rewrite Nat.max_0_r.
  - by rewrite IH, length_beside, Nat.max_assoc.
Qed.

(** Line [i] of several lists of lines side by side is made of the lines
    [i] of those that have one, in order. *)
Lemma lookup_foldl_beside r (lss : list (list string)) (i : nat) :
  foldl beside r lss !! i =
  match omap (.!! i) (r :: lss) with
  | [] => None
  | parts => Some (str_concat parts)
  end.
Proof.
  revert r. induction lss as [|ls lss IH]; intros r.
  - simpl. destruct (r !! i) as [x|]; simpl; [by rewrite append_empty_r | done].
  - simpl foldl. rewrite IH. simpl. rewrite lookup_beside.
    destruct (r !! i) as [x|], (ls !! i) as [y|]; simpl; try done.
    by rewrite append_assoc.
Qed.

Lemma lookup_foldl_beside_nil (lss : list (list string)) (i : nat) :
  foldl beside [] lss !! i =
  match omap (.!! i) lss with
  | [] => None
  | parts => Some (str_concat parts)
  end.
Proof. by rewrite lookup_foldl_beside. Qed.

Lemma omap_lookup_Forall2 {A} (f : A → list string) (bs : list A) (i : nat) ls :
  Forall2 (λ c l, f c !! i = Some l) bs ls → omap (.!! i) (f <$> bs) = ls.
Proof.
  induction 1 as [|c l bs ls Hc _ IH]; csimpl; [done |]. by rewrite Hc, IH.
Qed.

(** C3. [Column.get_formatted_list] gives every child, in insertion order,
    the width [max(child.width, self.width)] of [set_width(self.width)]
    and returns the children's lines one child after the other;
    [Row.get_formatted_list] gives every child the height of
    [set_height(self.height)], and where each child has a line [i], line
    [i] of the result is those lines concatenated in child order. *)
Theorem container_get_formatted_list (bs : list Block) (w h : Z) :
  (lines_of (Column bs w h) = concat ((λ c, lines_of (set_width w c)) <$> bs)
   ∧ rendered (Column bs w h) =
       Column ((λ c, rendered (set_width w c)) <$> bs) w h
   ∧ Forall2 (λ c c', width c' = Z.max (width c) w ∧ height c' = height c)
       bs (blocks (rendered (Column bs w h))))
  ∧ (rendered (Row bs w h) = Row ((λ c, rendered (set_height h c)) <$> bs) w h
     ∧ Forall2 (λ c c', width c' = width c ∧ height c' = Z.max (height c) h)
         bs (blocks (rendered (Row bs w h)))
     ∧ ∀ (i : nat) (ls : list string),
         bs ≠ [] →
         Forall2 (λ c l, lines_of (set_height h c) !! i = Some l) bs ls →
         lines_of (Row bs w h) !! i = Some (str_concat ls)).
Proof.
  split_and!.
  - apply lines_of_Column.
  - apply rendered_Column.
  - rewrite rendered_Column. simpl.
    apply Forall2_fmap_r, Forall_Forall2_diag, Forall_forall. intros c _.
    unfold compose.
    by rewrite width_rendered, height_rendered, width_set_width, height_set_width.
  - apply rendered_Row.
  - rewrite rendered_Row. simpl.
    apply Forall2_fmap_r, Forall_Forall2_diag, Forall_forall. intros c _.
    unfold compose.
    by rewrite width_rendered, height_rendered, width_set_height, height_set_height.
  - intros i ls Hbs Hls. rewrite lines_of_Row, lookup_foldl_beside_nil.
    rewrite (omap_lookup_Forall2 _ _ _ _ Hls).
    destruct Hls; [done | done].
Qed.

Lemma container_get_formatted_list_witness :
  let bs := [new_Element "a"; new_VerticalLine; set_height 3 (new_Element "b")] in
  lines_of (Row bs 7 3) !! 1%nat = Some " a | b ".
Proof.
  intros bs.
  destruct (container_get_formatted_list bs 7 3) as [_ (_ & _ & H)].
  apply (H 1%nat [" a "; "|"; " b "]); [done |].
  repeat (constructor; [vm_compute; reflexivity |]). constructor.
Defined.

(** C10. The result of [Row.get_formatted_list] has as many lines as the
    child with the most lines, and its line [i] is the concatenation, in
    child order, of line [i] of exactly those children that have one; the
    lines of the result need not be equally long. *)
Theorem Row_unequal_children (bs : list Block) (w h : Z) :
  let child_lines := (λ c, lines_of (set_height h c)) <$> bs in
  let result := lines_of (Row bs w h) in
  length result = max_list (length <$> child_lines)
  ∧ ∀ i : nat,
      result !! i =
      if bool_decide (i < length result)%nat
      then Some (str_concat (omap (.!! i) child_lines))
      else None.
Proof.
  intros child_lines result. subst result. rewrite lines_of_Row. fold child_lines.
  split; [by rewrite length_foldl_beside |].
  intros i. case_bool_decide as Hi.
  - rewrite lookup_foldl_beside_nil.
    apply lookup_lt_is_Some_2 in Hi. destruct Hi as [x Hx].
    rewrite lookup_foldl_beside_nil in Hx.
    by destruct (omap (.!! i) child_lines).
  - apply lookup_ge_None. lia.
Qed.

(** ** Formatting twice *)

Lemma get_formatted_list_pair b : get_formatted_list b = (lines_of b, rendered b).
Proof. unfold lines_of, rendered. by destruct (get_formatted_list b). Qed.

Lemma set_width_rendered w c :
  set_width w (rendered (set_width w c)) = rendered (set_width w c).
Proof.
  rewrite (set_width_with_size w (rendered _)).
  rewrite Z.max_l by (rewrite width_rendered, width_set_width; lia).
  apply with_size_id.
Qed.

Lemma set_height_rendered h c :
  set_height h (rendered (set_height h c)) = rendered (set_height h c).
Proof.
  rewrite (set_height_with_size h (rendered _)).
  rewrite Z.max_l by (rewrite height_rendered, height_set_height; lia).
  apply with_size_id.
Qed.

Lemma get_formatted_list_rendered_sized b w h :
  get_formatted_list (rendered (with_size w h b)) =
  get_formatted_list (with_size w h b).
Proof.
  revert w h.
  induction b as [t w0 h0|w0 h0|w0 h0|bs w0 h0 IH|bs w0 h0 IH] using Block_ind;
    intros w h; try done; simpl with_size.
  - rewrite (get_formatted_list_pair (rendered _)), (get_formatted_list_pair (Column _ _ _)).
    rewrite rendered_Column, lines_of_Column, rendered_Column, lines_of_Column.
    rewrite <- !list_fmap_compose.
    f_equal; [f_equal |]; [| f_equal]; apply Forall_fmap_ext;
      (eapply Forall_impl; [exact IH |]); intros c Hc; simpl;
      rewrite set_width_rendered;
      specialize (Hc (Z.max (width c) w) (height c));
      rewrite <- set_width_with_size in Hc;
      rewrite !get_formatted_list_pair in Hc; congruence.
  - rewrite (get_formatted_list_pair (rendered _)), (get_formatted_list_pair (Row _ _ _)).
    rewrite rendered_Row, lines_of_Row, rendered_Row, lines_of_Row.
    rewrite <- !list_fmap_compose.
    f_equal; [f_equal |]; [| f_equal]; apply Forall_fmap_ext;
      (eapply Forall_impl; [exact IH |]); intros c Hc; simpl;
      rewrite set_height_rendered;
      specialize (Hc (width c) (Z.max (height c) h));
      rewrite <- set_height_with_size in Hc;
      rewrite !get_formatted_list_pair in Hc; congruence.
Qed.

(** C9. Calling [get_formatted_list] twice in succession on a block
    returns the same lines both times: the sizes the first call gave to
    the descendants are left as they are by the second call. *)
Theorem get_formatted_list_twice (b : Block) :
  let '(lines1, b1) := get_formatted_list b in
  let '(lines2, b2) := get_formatted_list b1 in
  lines2 = lines1 ∧ b2 = b1.
Proof.
  pose proof (get_formatted_list_rendered_sized b (width b) (height b)) as H.
  rewrite with_size_id in H. rewrite !get_formatted_list_pair in *.
  by simplify_eq.
Qed.

(** ** Blocks that format to a rectangle *)

Lemma rectangle_concat w (hs : list Z) (lss : list (list string)) :
  Forall2 (rectangle w) hs lss → rectangle w (total hs) (concat lss).
Proof.
  induction 1 as [|h ls hs lss [Hlen Hls] _ [IHlen IH]]; [by split |].
  split.
  - change (total (h :: hs)) with (h + total hs). simpl. rewrite length_app. lia.
  - by apply Forall_app.
Qed.

Lemma rectangle_beside a b h r ls :
  rectangle a h r → rectangle b h ls → rectangle (a + b) h (beside r ls).
Proof.
  intros [Hr1 Hr2] [Hl1 Hl2]. assert (length r = length ls) as Hlen by lia.
  split; [rewrite length_beside; lia |]. clear Hr1 Hl1.
  revert ls Hl2 Hlen. induction Hr2 as [|x r Hx _ IH]; intros [|y ls] Hl2 Hlen;
    simplify_eq/=; [done |].
  apply Forall_cons in Hl2 as [Hy Hl2]. constructor; [| by apply IH].
  rewrite len_append. lia.
Qed.

Lemma rectangle_foldl_beside a h r (ws : list Z) (lss : list (list string)) :
  rectangle a h r → Forall2 (λ b, rectangle b h) ws lss →
  rectangle (a + total ws) h (foldl beside r lss).
Proof.
  intros Hr Hall. revert a r Hr.
  induction Hall as [|b ls ws lss Hls _ IH]; intros a r Hr; simpl.
  - by rewrite Z.add_0_r.
  - rewrite Z.add_assoc. apply IH. by apply rectangle_beside.
Qed.

Lemma fits_rectangle b w h :
  fits w h b = true → rectangle w h (lines_of (with_size w h b)).
Proof.
  revert w h.
  induction b as [t w0 h0|w0 h0|w0 h0|bs w0 h0 IH|bs w0 h0 IH] using Block_ind;
    intros w h Hfits; simpl in Hfits; simpl with_size.
  - apply andb_prop in Hfits as [Hw%bool_decide_eq_true Hh%bool_decide_eq_true].
    destruct (above_under_sum h Hh) as [Habove Hsum].
    assert (0 ≤ h / 2) by (apply Z.div_pos; lia).
    assert (0 ≤ Py.len t) by (unfold Py.len; lia).
    rewrite lines_of_Element. split.
    + rewrite !length_app, !length_replicate. simpl. lia.
    + repeat apply Forall_app_2; [| repeat constructor |];
        try (apply Forall_replicate; rewrite len_str_mul_char by done; lia).
      rewrite len_center. lia.
  - apply andb_prop in Hfits as [Hw%bool_decide_eq_true ->%bool_decide_eq_true].
    split; [done |]. repeat constructor. simpl width.
    rewrite len_str_mul_char by done. lia.
  - apply andb_prop in Hfits as [->%bool_decide_eq_true Hh%bool_decide_eq_true].
    unfold lines_of. simpl. unfold Py.list_mul. split.
    + rewrite length_replicate. lia.
    + by apply Forall_replicate.
  - apply andb_prop in Hfits as [->%bool_decide_eq_true Hbs].
    rewrite lines_of_Column. apply rectangle_concat.
    apply Forall2_fmap, Forall_Forall2_diag.
    rewrite forallb_forall in Hbs. rewrite Forall_forall in IH |- *.
    intros c Hc. specialize (Hbs c (proj1 (list_elem_of_In _ _) Hc)).
    apply andb_prop in Hbs as [Hcw%bool_decide_eq_true Hfit].
    rewrite set_width_with_size, Z.max_r by done. by apply IH.
  - apply andb_prop in Hfits as [Hfits Hbs].
    apply andb_prop in Hfits as [->%bool_decide_eq_true Hnil%bool_decide_eq_true].
    rewrite lines_of_Row.
    assert (Forall2 (λ b, rectangle b h) (width <$> bs)
              ((λ c, lines_of (set_height h c)) <$> bs)) as Hall.
    { apply Forall2_fmap, Forall_Forall2_diag.
      rewrite forallb_forall in Hbs. rewrite Forall_forall in IH |- *.
      intros c Hc. specialize (Hbs c (proj1 (list_elem_of_In _ _) Hc)).
      apply andb_prop in Hbs as [Hch%bool_decide_eq_true Hfit].
      rewrite set_height_with_size, Z.max_r by done. by apply IH. }
    destruct bs as [|c bs]; [by rewrite Hnil by done |].
    rewrite !fmap_cons in Hall |- *. apply Forall2_cons in Hall as [Hc Hall].
    simpl. by apply rectangle_foldl_beside.
Qed.

(** C2, as the code has it. A block that is [tight] formats to exactly
    [height] lines of exactly [width] characters each. *)
Theorem tight_block_is_rectangle (b : Block) :
  tight b = true →
  Z.of_nat (length (lines_of b)) = height b
  ∧ Forall (λ line, Py.len line = width b) (lines_of b).
Proof.
  intros Htight. apply fits_rectangle in Htight. by rewrite with_size_id in Htight.
Qed.

(** ** Calls on the blocks of a tree *)

Lemma well_sized_unfold b :
  well_sized b = true ↔
  (get_min_width b ≤ width b ∧ get_min_height b ≤ height b)
  ∧ Forall (λ c, well_sized c = true) (blocks b).
Proof.
  assert (∀ bs, forallb well_sized bs = true ↔ Forall (λ c, well_sized c = true) bs)
    as Hall.
  { intros bs. rewrite forallb_forall, Forall_forall.
    by setoid_rewrite list_elem_of_In. }
  destruct b; simpl; unfold sized;
    rewrite !andb_true_iff, !bool_decide_eq_true, ?Hall, ?Forall_nil; tauto.
Qed.

Lemma container_min_ext bs bs' :
  get_min_width <$> bs' = get_min_width <$> bs →
  get_min_height <$> bs' = get_min_height <$> bs →
  ∀ w h w' h',
    (get_min_width (Column bs' w' h') = get_min_width (Column bs w h)
     ∧ get_min_height (Column bs' w' h') = get_min_height (Column bs w h))
    ∧ (get_min_width (Row bs' w' h') = get_min_width (Row bs w h)
       ∧ get_min_height (Row bs' w' h') = get_min_height (Row bs w h)).
Proof.
  intros Hw Hh w h w' h'.
  destruct bs as [|c bs], bs' as [|c' bs']; try done.
  simpl. rewrite !fmap_cons in Hw, Hh. simplify_eq.
  change (map get_min_width bs') with (get_min_width <$> bs').
  change (map get_min_height bs') with (get_min_height <$> bs').
  change (map get_min_width bs) with (get_min_width <$> bs).
  change (map get_min_height bs) with (get_min_height <$> bs).
  by repeat match goal with H : _ = _ |- _ => rewrite H end.
Qed.

Lemma keeps_sizes_child (mk : list Block → Z → Z → Block) bs w h i c c' :
  (mk = Column ∨ mk = Row) →
  bs !! i = Some c →
  get_min_width c' = get_min_width c →
  get_min_height c' = get_min_height c →
  (well_sized c = true → well_sized c' = true) →
  get_min_width (mk (<[i:=c']> bs) w h) = get_min_width (mk bs w h)
  ∧ get_min_height (mk (<[i:=c']> bs) w h) = get_min_height (mk bs w h)
  ∧ (well_sized (mk bs w h) = true → well_sized (mk (<[i:=c']> bs) w h) = true).
Proof.
  intros Hmk Hi Hcw Hch Hc.
  assert (get_min_width <$> <[i:=c']> bs = get_min_width <$> bs) as Hw.
  { rewrite list_fmap_insert, Hcw. apply list_insert_id. by rewrite list_lookup_fmap, Hi. }
  assert (get_min_height <$> <[i:=c']> bs = get_min_height <$> bs) as Hh.
  { rewrite list_fmap_insert, Hch. apply list_insert_id. by rewrite list_lookup_fmap, Hi. }
  destruct (container_min_ext bs (<[i:=c']> bs) Hw Hh w h w h)
    as [[HCw HCh] [HRw HRh]].
  destruct Hmk as [-> | ->]; (split; [done |]; split; [done |]);
    rewrite !well_sized_unfold; cbn [width height blocks]; intros [Hsz Hall];
    (split; [by rewrite ?HCw, ?HCh, ?HRw, ?HRh |]);
    (apply Forall_insert; [done |]);
    apply Hc; exact (Forall_lookup_1 _ _ _ _ Hall Hi).
Qed.

Lemma at_path_keeps_sizes f p : keeps_sizes f → keeps_sizes (at_path f p).
Proof.
  intros Hf. induction p as [|i p IH]; [done |].
  intros b b' Hb. destruct b as [| | |bs w h|bs w h]; simplify_eq/=.
  - destruct (bs !! i) as [c|] eqn:Hi; simplify_eq/=.
    destruct (at_path f p c) as [c'|] eqn:Hc; simplify_eq/=.
    destruct (IH c c' Hc) as (Hcw & Hch & Hcs).
    by apply (keeps_sizes_child Column _ _ _ _ c); [left | ..].
  - destruct (bs !! i) as [c|] eqn:Hi; simplify_eq/=.
    destruct (at_path f p c) as [c'|] eqn:Hc; simplify_eq/=.
    destruct (IH c c' Hc) as (Hcw & Hch & Hcs).
    by apply (keeps_sizes_child Row _ _ _ _ c); [right | ..].
Qed.

Lemma well_sized_with_size b w h :
  width b ≤ w → height b ≤ h →
  well_sized b = true → well_sized (with_size w h b) = true.
Proof.
  intros Hw Hh. rewrite !well_sized_unfold.
  rewrite get_min_width_with_size, get_min_height_with_size.
  destruct b; simpl in *; (intros [[? ?] ?]; split; [lia | done]).
Qed.

Lemma keeps_sizes_set_width w : keeps_sizes (call (Call_set_width w)).
Proof.
  intros b b' Hb. simplify_eq/=. rewrite set_width_with_size.
  rewrite get_min_width_with_size, get_min_height_with_size.
  split_and!; [done | done |]. apply well_sized_with_size; lia.
Qed.

Lemma keeps_sizes_set_height h : keeps_sizes (call (Call_set_height h)).
Proof.
  intros b b' Hb. simplify_eq/=. rewrite set_height_with_size.
  rewrite get_min_width_with_size, get_min_height_with_size.
  split_and!; [done | done |]. apply well_sized_with_size; lia.
Qed.

Lemma rendered_keeps_sizes b w h :
  get_min_width (rendered (with_size w h b)) = get_min_width b
  ∧ get_min_height (rendered (with_size w h b)) = get_min_height b
  ∧ (well_sized (with_size w h b) = true
     → well_sized (rendered (with_size w h b)) = true).
Proof.
  revert w h.
  induction b as [t w0 h0|w0 h0|w0 h0|bs w0 h0 IH|bs w0 h0 IH] using Block_ind;
    intros w h; try done; simpl with_size.
  - rewrite rendered_Column.
    set (bs' := (λ c, rendered (set_width w c)) <$> bs).
    assert (get_min_width <$> bs' = get_min_width <$> bs
            ∧ get_min_height <$> bs' = get_min_height <$> bs
            ∧ (Forall (λ c, well_sized c = true) bs
               → Forall (λ c, well_sized c = true) bs')) as (Hw & Hh & Hall).
    { subst bs'. rewrite <- !list_fmap_compose. split_and!.
      - apply Forall_fmap_ext. eapply Forall_impl; [exact IH |]. intros c Hc.
        simpl. rewrite set_width_with_size. apply Hc.
      - apply Forall_fmap_ext. eapply Forall_impl; [exact IH |]. intros c Hc.
        simpl. rewrite set_width_with_size. apply Hc.
      - intros Hbs. apply Forall_fmap.
        rewrite Forall_forall in IH, Hbs |- *. intros c Hin. unfold compose.
        rewrite set_width_with_size.
        apply (IH c Hin), well_sized_with_size; [lia | lia | by apply Hbs]. }
    destruct (container_min_ext bs bs' Hw Hh w0 h0 w h) as [[HCw HCh] _].
    split_and!; [done | done |]. rewrite !well_sized_unfold.
    cbn [width height blocks]. intros [Hsz Hbs]. split; [| by apply Hall].
    destruct (container_min_ext bs bs' Hw Hh w h w h) as [[-> ->] _]. done.
  - rewrite rendered_Row.
    set (bs' := (λ c, rendered (set_height h c)) <$> bs).
    assert (get_min_width <$> bs' = get_min_width <$> bs
            ∧ get_min_height <$> bs' = get_min_height <$> bs
            ∧ (Forall (λ c, well_sized c = true) bs
               → Forall (λ c, well_sized c = true) bs')) as (Hw & Hh & Hall).
    { subst bs'. rewrite <- !list_fmap_compose. split_and!.
      - apply Forall_fmap_ext. eapply Forall_impl; [exact IH |]. intros c Hc.
        simpl. rewrite set_height_with_size. apply Hc.
      - apply Forall_fmap_ext. eapply Forall_impl; [exact IH |]. intros c Hc.
        simpl. rewrite set_height_with_size. apply Hc.
      - intros Hbs. apply Forall_fmap.
        rewrite Forall_forall in IH, Hbs |- *. intros c Hin. unfold compose.
        rewrite set_height_with_size.
        apply (IH c Hin), well_sized_with_size; [lia | lia | by apply Hbs]. }
    destruct (container_min_ext bs bs' Hw Hh w0 h0 w h) as [_ [HRw HRh]].
    split_and!; [done | done |]. rewrite !well_sized_unfold.
    cbn [width height blocks]. intros [Hsz Hbs]. split; [| by apply Hall].
    destruct (container_min_ext bs bs' Hw Hh w h w h) as [_ [-> ->]]. done.
Qed.

Lemma keeps_sizes_get_formatted_list : keeps_sizes (call Call_get_formatted_list).
Proof.
  intros b b' Hb. simplify_eq/=.
  pose proof (rendered_keeps_sizes b (width b) (height b)) as H.
  by rewrite with_size_id in H.
Qed.

Lemma well_sized_fresh b : fresh b → well_sized b = true.
Proof.
  destruct 1; try done. apply well_sized_unfold. simpl. split; [lia | done].
Qed.

Lemma add_block_Column block bs w h :
  add_block block (Column bs w h) =
  Some (Column (bs ++ [block])
          (Z.max w (get_min_width (Column (bs ++ [block]) w h)))
          (Z.max h (get_min_height (Column (bs ++ [block]) w h)))).
Proof. reflexivity. Qed.

Lemma add_block_Row block bs w h :
  add_block block (Row bs w h) =
  Some (Row (bs ++ [block])
          (Z.max w (get_min_width (Row (bs ++ [block]) w h)))
          (Z.max h (get_min_height (Row (bs ++ [block]) w h)))).
Proof. reflexivity. Qed.

Lemma well_sized_add_block block self self' :
  add_block block self = Some self' →
  well_sized block = true → well_sized self = true → well_sized self' = true.
Proof.
  intros Hadd Hblock.
  destruct self as [| | |bs w h|bs w h]; try discriminate.
  - rewrite add_block_Column in Hadd. apply (inj Some) in Hadd as <-.
    set (mw := get_min_width (Column (bs ++ [block]) w h)).
    set (mh := get_min_height (Column (bs ++ [block]) w h)).
    rewrite !well_sized_unfold. cbn [width height blocks]. intros [_ Hbs].
    change (get_min_width (Column (bs ++ [block]) _ _)) with mw.
    change (get_min_height (Column (bs ++ [block]) _ _)) with mh.
    split; [lia | apply Forall_app; split; [done | by constructor]].
  - rewrite add_block_Row in Hadd. apply (inj Some) in Hadd as <-.
    set (mw := get_min_width (Row (bs ++ [block]) w h)).
    set (mh := get_min_height (Row (bs ++ [block]) w h)).
    rewrite !well_sized_unfold. cbn [width height blocks]. intros [_ Hbs].
    change (get_min_width (Row (bs ++ [block]) _ _)) with mw.
    change (get_min_height (Row (bs ++ [block]) _ _)) with mh.
    split; [lia | apply Forall_app; split; [done | by constructor]].
Qed.

(** C1, as the code has it. In a tree built bottom-up (constructors,
    [set_width], [set_height] and [get_formatted_list] on any block,
    [add_block] on the root only, with a block built the same way), the
    width of every block is at least its [get_min_width()] and its height
    at least its [get_min_height()]. *)
Theorem bottom_up_well_sized (b : Block) :
  bottom_up b → well_sized b = true.
Proof.
  induction 1 as [b Hb|p c b b' Hb IH Hroot Hblock IHblock Hcall].
  - by apply well_sized_fresh.
  - destruct c as [w|h|block|].
    + by eapply (at_path_keeps_sizes _ p (keeps_sizes_set_width w)).
    + by eapply (at_path_keeps_sizes _ p (keeps_sizes_set_height h)).
    + rewrite (Hroot block eq_refl) in Hcall. simpl in Hcall.
      eapply well_sized_add_block; [exact Hcall | by apply IHblock | done].
    + by eapply (at_path_keeps_sizes _ p keeps_sizes_get_formatted_list).
Qed.

Lemma bottom_up_well_sized_witness :
  let column := Column [Element "abc" 5 1; HorizontalLine 0 1] 5 2 in
  bottom_up (set_width 9 column) ∧ well_sized (set_width 9 column) = true.
Proof.
  intros column.
  assert (bottom_up (set_width 9 column)) as Hb.
  { apply (bottom_up_call [] (Call_set_width 9) column); [| done | done | done].
    apply (bottom_up_call [] (Call_add_block new_HorizontalLine)
             (Column [Element "abc" 5 1] 5 1)); [| done | | done].
    - apply (bottom_up_call [] (Call_add_block (new_Element "abc")) new_Column);
        [| done | | done].
      + apply bottom_up_fresh, fresh_Column.
      + intros block [= <-]. apply bottom_up_fresh, fresh_Element.
    - intros block [= <-]. apply bottom_up_fresh, fresh_HorizontalLine. }
  split; [exact Hb | exact (bottom_up_well_sized _ Hb)].
Defined.

(** C1 as stated fails: [add_block] on a column that has already been
    added to another column widens the inner column and leaves the outer
    one at width [0], below its minimal width [5]. *)
Lemma add_block_below_root_not_well_sized :
  let outer := Column [Column [Element "abc" 5 1] 5 1] 0 0 in
  (outer' ← add_block new_Column new_Column;
   at_path (call (Call_add_block (new_Element "abc"))) [0%nat] outer') = Some outer
  ∧ reachable outer
  ∧ width outer < get_min_width outer
  ∧ height outer < get_min_height outer
  ∧ well_sized outer = false.
Proof.
  intros outer. split_and!; try done.
  apply (reachable_call [0%nat] (Call_add_block (new_Element "abc"))
           (Column [Column [] 0 0] 0 0)); [| | done].
  - apply (reachable_call [] (Call_add_block new_Column) new_Column); [| | done].
    + apply reachable_fresh, fresh_Column.
    + intros block [= <-]. apply reachable_fresh, fresh_Column.
  - intros block [= <-]. apply reachable_fresh, fresh_Element.
Qed.

Lemma tight_block_is_rectangle_witness :
  let row := Row [Element "a" 3 3; VerticalLine 1 0; Element "b" 3 1] 7 3 in
  tight row = true
  ∧ Z.of_nat (length (lines_of row)) = height row
  ∧ Forall (λ line, Py.len line = width row) (lines_of row).
Proof.
  intros row. assert (tight row = true) as Htight by (vm_compute; reflexivity).
  split; [exact Htight | exact (tight_block_is_rectangle row Htight)].
Defined.

(** The table of the example is tight. *)
Lemma example_table_tight : tight <$> example_table = Some true.
Proof. vm_compute. reflexivity. Qed.

(** C2 as stated fails. A row of a one-cell column and a two-cell column,
    built bottom-up, has height [2] and width [6], but its second line is
    the second cell of the second column alone, [3] characters long; no
    width or height the caller sets on the row changes its lines.  A
    [HorizontalLine] whose height has been set to [3] formats to one
    line. *)
Lemma ragged_row_not_rectangle :
  let row :=
    Row [Column [Element "a" 3 1] 3 1;
         Column [Element "b" 3 1; Element "c" 3 1] 3 2] 6 2 in
  (left ← add_block (new_Element "a") new_Column;
   right ← add_block (new_Element "b") new_Column;
   right ← add_block (new_Element "c") right;
   row ← add_block left new_Row;
   add_block right row) = Some row
  ∧ well_sized row = true
  ∧ lines_of row = [" a  b "; " c "]
  ∧ (∀ w h, lines_of (set_width w (set_height h row)) = [" a  b "; " c "])
  ∧ ¬ Forall (λ line, Py.len line = width row) (lines_of row)
  ∧ lines_of (set_height 3 new_HorizontalLine) = [""]
  ∧ Z.of_nat (length (lines_of (set_height 3 new_HorizontalLine)))
    ≠ height (set_height 3 new_HorizontalLine).
Proof.
  intros row. split_and!; try done.
  intros Hall. apply Forall_cons in Hall as [_ Hall].
  apply Forall_cons in Hall as [Hc _]. vm_compute in Hc. discriminate.
Qed.

(** C8. The table built for the example of the docstring (supplies
    [140.0, 180.0, 160.0], the 3 by 5 cost matrix, demands
    [60.0, 70.0, 120.0, 130.0, 100.0]) formats to the lines of the
    docstring, and [str] of it is those lines joined by newlines. *)
Theorem example_table_is_docstring_table :
  lines_of <$> example_table = Some docstring_table
  ∧ to_str <$> example_table = Some (Py.join "
" docstring_table)
  ∧ length docstring_table = 11%nat.
Proof. vm_compute. split_and!; reflexivity. Qed.


(** * Further properties of the blocks *)

(** ** Minimal sizes *)

Lemma total_nonneg (l : list Z) : Forall (λ x, 0 ≤ x) l → 0 ≤ total l.
Proof. induction 1 as [|x l Hx _ IH]; [done |]. unfold total in *. simpl. lia. Qed.

Lemma total_app (l1 l2 : list Z) : total (l1 ++ l2) = total l1 + total l2.
Proof.
  induction l1 as [|x l1 IH]; [done |]. unfold total in *. simpl. rewrite IH. lia.
Qed.

Lemma maximum_of_nonneg (l : list Z) (m : Z) :
  Forall (λ x, 0 ≤ x) l → maximum_of l m → 0 ≤ m.
Proof.
  intros Hl Hm. destruct l as [|x l]; [by rewrite Hm |].
  destruct Hm as [Hin _]. rewrite Forall_forall in Hl. by apply Hl.
Qed.

Lemma get_min_width_nonneg b : 0 ≤ get_min_width b.
Proof.
  induction b as [t w h|w h|w h|bs w h IH|bs w h IH] using Block_ind;
    try done.
  - simpl. unfold Py.len. lia.
  - eapply maximum_of_nonneg; [| apply get_min_width_Column]. by apply Forall_fmap.
  - rewrite get_min_width_Row. by apply total_nonneg, Forall_fmap.
Qed.

Lemma get_min_height_nonneg b : 0 ≤ get_min_height b.
Proof.
  induction b as [t w h|w h|w h|bs w h IH|bs w h IH] using Block_ind;
    try done.
  - rewrite get_min_height_Column. by apply total_nonneg, Forall_fmap.
  - eapply maximum_of_nonneg; [| apply get_min_height_Row]. by apply Forall_fmap.
Qed.

(** X1. The minimal width and the minimal height of a block are never
    negative. *)
Theorem get_min_size_nonneg (b : Block) :
  0 ≤ get_min_width b ∧ 0 ≤ get_min_height b.
Proof. split; [apply get_min_width_nonneg | apply get_min_height_nonneg]. Qed.

(** The minimal sizes of a container with one more child. *)
Lemma get_min_width_Column_snoc bs b w h w' h' :
  get_min_width (Column (bs ++ [b]) w h) =
  Z.max (get_min_width (Column bs w' h')) (get_min_width b).
Proof.
  destruct bs as [|c bs]; simpl.
  - pose proof (get_min_width_nonneg b). lia.
  - by rewrite map_app, foldl_app.
Qed.

Lemma get_min_height_Row_snoc bs b w h w' h' :
  get_min_height (Row (bs ++ [b]) w h) =
  Z.max (get_min_height (Row bs w' h')) (get_min_height b).
Proof.
  destruct bs as [|c bs]; simpl.
  - pose proof (get_min_height_nonneg b). lia.
  - by rewrite map_app, foldl_app.
Qed.

Lemma get_min_width_Row_snoc bs b w h w' h' :
  get_min_width (Row (bs ++ [b]) w h) =
  get_min_width (Row bs w' h') + get_min_width b.
Proof.
  rewrite !get_min_width_Row, fmap_app, total_app. unfold total. simpl. lia.
Qed.

Lemma get_min_height_Column_snoc bs b w h w' h' :
  get_min_height (Column (bs ++ [b]) w h) =
  get_min_height (Column bs w' h') + get_min_height b.
Proof.
  rewrite !get_min_height_Column, fmap_app, total_app. unfold total. simpl. lia.
Qed.

(** ** [add_block] *)

Lemma add_block_container block self :
  is_container self = true →
  ∃ self', add_block block self = Some self' ∧ is_container self' = true.
Proof. destruct self; try done; intros _; by eexists. Qed.

Lemma add_block_Some block self self' :
  add_block block self = Some self' →
  blocks self' = blocks self ++ [block]
  ∧ is_container self' = true
  ∧ width self' = Z.max (width self) (get_min_width self')
  ∧ height self' = Z.max (height self) (get_min_height self')
  ∧ get_min_width self ≤ get_min_width self'
  ∧ get_min_height self ≤ get_min_height self'.
Proof.
  intros Hadd. destruct self as [| | |bs w h|bs w h]; try discriminate.
  - rewrite add_block_Column in Hadd. apply (inj Some) in Hadd as <-.
    split_and!; try done.
    + rewrite (get_min_width_Column_snoc _ _ _ _ w h). lia.
    + rewrite (get_min_height_Column_snoc _ _ _ _ w h).
      pose proof (get_min_height_nonneg block). lia.
  - rewrite add_block_Row in Hadd. apply (inj Some) in Hadd as <-.
    split_and!; try done.
    + rewrite (get_min_width_Row_snoc _ _ _ _ w h).
      pose proof (get_min_width_nonneg block). lia.
    + rewrite (get_min_height_Row_snoc _ _ _ _ w h). lia.
Qed.

(** X2. [add_block] fails exactly on the blocks that are not containers.
    On a container it puts the block after the children there are, leaves
    the container with the width [max(width, get_min_width())] and the
    height [max(height, get_min_height())] of the new minimal sizes, and
    neither the minimal width nor the minimal height of the container gets
    smaller. *)
Theorem add_block_grows (block self : Block) :
  (add_block block self = None ↔ is_container self = false)
  ∧ ∀ self', add_block block self = Some self' →
      blocks self' = blocks self ++ [block]
      ∧ is_container self' = true
      ∧ width self' = Z.max (width self) (get_min_width self')
      ∧ height self' = Z.max (height self) (get_min_height self')
      ∧ get_min_width self ≤ get_min_width self'
      ∧ get_min_height self ≤ get_min_height self'.
Proof.
  split; [by destruct self | apply add_block_Some].
Qed.

Lemma add_block_grows_witness :
  let column := Column [Element "abc" 5 1] 5 1 in
  let column' := Column [Element "abc" 5 1; Element "abcde" 7 1] 7 2 in
  add_block (new_Element "abcde") column = Some column'
  ∧ blocks column' = blocks column ++ [new_Element "abcde"]
  ∧ get_min_width column ≤ get_min_width column'.
Proof.
  intros column column'.
  assert (add_block (new_Element "abcde") column = Some column') as Hadd
    by reflexivity.
  destruct (add_block_grows (new_Element "abcde") column) as [_ H].
  destruct (H column' Hadd) as (Hblocks & _ & _ & _ & Hmin & _).
  split_and!; [exact Hadd | exact Hblocks | exact Hmin].
Defined.

Lemma add_block_init_Column cs b :
  add_block b (init (Column cs 0 0)) = Some (init (Column (cs ++ [b]) 0 0)).
Proof.
  unfold init. cbn [with_size]. rewrite add_block_Column. do 2 f_equal.
  - rewrite !(get_min_width_Column_snoc _ _ _ _ 0 0). lia.
  - rewrite !(get_min_height_Column_snoc _ _ _ _ 0 0).
    pose proof (get_min_height_nonneg b). lia.
Qed.

Lemma add_block_init_Row cs b :
  add_block b (init (Row cs 0 0)) = Some (init (Row (cs ++ [b]) 0 0)).
Proof.
  unfold init. cbn [with_size]. rewrite add_block_Row. do 2 f_equal.
  - rewrite !(get_min_width_Row_snoc _ _ _ _ 0 0).
    pose proof (get_min_width_nonneg b). lia.
  - rewrite !(get_min_height_Row_snoc _ _ _ _ 0 0). lia.
Qed.

Lemma for_each_cons {A S} (body : S → A → option S) s x l :
  for_each body s (x :: l) = body s x ≫= λ s', for_each body s' l.
Proof. reflexivity. Qed.





(** ** What [get_formatted_list] leaves alone *)

Lemma children_grow_Column bs w :
  Forall2 (λ c c', width c ≤ width c' ∧ height c ≤ height c')
    bs ((λ c, rendered (set_width w c)) <$> bs).
Proof.
  apply Forall2_fmap_r, Forall_Forall2_diag, Forall_forall. intros c _.
  unfold compose.
  rewrite width_rendered, height_rendered, width_set_width, height_set_width.
  lia.
Qed.

Lemma children_grow_Row bs h :
  Forall2 (λ c c', width c ≤ width c' ∧ height c ≤ height c')
    bs ((λ c, rendered (set_height h c)) <$> bs).
Proof.
  apply Forall2_fmap_r, Forall_Forall2_diag, Forall_forall. intros c _.
  unfold compose.
  rewrite width_rendered, height_rendered, width_set_height, height_set_height.
  lia.
Qed.

(** X4. [get_formatted_list] changes neither the width, the height, the
    minimal width nor the minimal height of the block it is called on; the
    block keeps its children, none of which gets narrower or lower; and a
    tree in which every block is at least as large as its minimal size
    stays such a tree. *)
Theorem get_formatted_list_keeps (b : Block) :
  (width (rendered b) = width b ∧ height (rendered b) = height b)
  ∧ (get_min_width (rendered b) = get_min_width b
     ∧ get_min_height (rendered b) = get_min_height b)
  ∧ Forall2 (λ c c', width c ≤ width c' ∧ height c ≤ height c')
      (blocks b) (blocks (rendered b))
  ∧ (well_sized b = true → well_sized (rendered b) = true).
Proof.
  pose proof (rendered_keeps_sizes b (width b) (height b)) as H.
  rewrite with_size_id in H. destruct H as (Hw & Hh & Hs).
  split_and!; try done.
  - apply width_rendered.
  - apply height_rendered.
  - destruct b as [| | |bs w h|bs w h]; try by constructor.
    + rewrite rendered_Column. apply children_grow_Column.
    + rewrite rendered_Row. apply children_grow_Row.
Qed.

Lemma get_formatted_list_keeps_witness :
  let row := Row [Element "a" 3 1; VerticalLine 1 0] 4 2 in
  well_sized row = true ∧ well_sized (rendered row) = true.
Proof.
  intros row. assert (well_sized row = true) as H by reflexivity.
  destruct (get_formatted_list_keeps row) as (_ & _ & _ & Hs).
  split; [exact H | exact (Hs H)].
Defined.

(** X5. The lines of a [Column] and of a [HorizontalLine] do not depend on
    its height, and the lines of a [Row] and of a [VerticalLine] do not
    depend on its width: [set_height], respectively [set_width], never
    changes them. *)
Theorem lines_ignore_one_dimension (bs : list Block) (w h x : Z) :
  lines_of (set_height x (Column bs w h)) = lines_of (Column bs w h)
  ∧ lines_of (set_width x (Row bs w h)) = lines_of (Row bs w h)
  ∧ lines_of (set_height x (HorizontalLine w h)) = lines_of (HorizontalLine w h)
  ∧ lines_of (set_width x (VerticalLine w h)) = lines_of (VerticalLine w h).
Proof.
  split_and!; try done.
  - cbn [set_height]. by rewrite !lines_of_Column.
  - cbn [set_width]. by rewrite !lines_of_Row.
Qed.

(** ** [__str__] *)

Lemma join_cons sep s l :
  l ≠ [] → Py.join sep (s :: l) = s +:+ sep +:+ Py.join sep l.
Proof. by destruct l. Qed.

Lemma len_join sep (l : list string) :
  l ≠ [] →
  Py.len (Py.join sep l) = total_len l + Py.len sep * (Z.of_nat (length l) - 1).
Proof.
  intros Hl. induction l as [|s l IH]; [done |].
  destruct l as [|s' l].
  - unfold total_len, total. simpl. lia.
  - rewrite join_cons, !len_append, IH by done.
    unfold total_len, total. simpl length. rewrite !fmap_cons. simpl. lia.
Qed.

Lemma total_len_rectangle w h lines : rectangle w h lines → total_len lines = h * w.
Proof.
  intros [<- Hall]. unfold total_len.
  induction Hall as [|s l Hs _ IH]; [done |].
  rewrite fmap_cons. change (total (?x :: ?l)) with (x + total l).
  rewrite IH, Hs. simpl length. lia.
Qed.

(** X6. [str(block)] has the characters of the lines and one newline
    between two consecutive lines; for a tight block of height at least 1
    these are [height * width + height - 1] characters, and none for one
    of height 0. *)
Theorem to_str_len (b : Block) :
  Py.len (to_str b) =
    total_len (lines_of b) + Z.max 0 (Z.of_nat (length (lines_of b)) - 1)
  ∧ (tight b = true →
     Py.len (to_str b) = Z.max 0 (height b * width b + height b - 1)).
Proof.
  assert (Py.len (to_str b) =
          total_len (lines_of b) + Z.max 0 (Z.of_nat (length (lines_of b)) - 1))
    as Hlen.
  { unfold to_str. destruct (lines_of b) as [|s l] eqn:Hl; [done |].
    rewrite len_join by done. change (Py.len _ * ?x) with (1 * x).
    simpl length. lia. }
  split; [exact Hlen |]. intros Htight. rewrite Hlen.
  apply fits_rectangle in Htight. rewrite with_size_id in Htight.
  rewrite (total_len_rectangle _ _ _ Htight). destruct Htight as [Hh Hw].
  destruct (lines_of b) as [|s l]; simpl length in *; [lia |].
  apply Forall_cons in Hw as [Hs _]. unfold Py.len in Hs. nia.
Qed.

Lemma to_str_len_witness :
  let row := Row [Element "a" 3 3; VerticalLine 1 0; Element "b" 3 1] 7 3 in
  tight row = true ∧ Py.len (to_str row) = 23.
Proof.
  intros row. assert (tight row = true) as Htight by (vm_compute; reflexivity).
  destruct (to_str_len row) as [_ H]. split; [exact Htight | exact (H Htight)].
Defined.


(** * Properties of the table formatter *)

(** ** Loops that add blocks *)

Lemma for_each_ext {A S} (body body' : S → A → option S) s l :
  (∀ s x, body s x = body' s x) → for_each body s l = for_each body' s l.
Proof.
  intros Hext. revert s. induction l as [|x l IH]; intros s; [done |].
  rewrite !for_each_cons, Hext. destruct (body' s x); [apply IH | done].
Qed.

Lemma for_each_add_block_Column {A} (g : A → option Block) l cs :
  for_each (λ s x, b ← g x; add_block b s) (init (Column cs 0 0)) l =
  bs ← mapM g l; Some (init (Column (cs ++ bs) 0 0)).
Proof.
  revert cs. induction l as [|x l IH]; intros cs.
  - simpl. by rewrite app_nil_r.
  - rewrite for_each_cons. cbn [mapM]. destruct (g x) as [b|]; [| done].
    cbn [mbind option_bind]. rewrite add_block_init_Column.
    cbn [mbind option_bind]. rewrite IH.
    destruct (mapM g l) as [bs|]; [| done]. simpl. by rewrite <- app_assoc.
Qed.

Lemma for_each_add_block_Row {A} (g : A → option Block) l cs :
  for_each (λ s x, b ← g x; add_block b s) (init (Row cs 0 0)) l =
  bs ← mapM g l; Some (init (Row (cs ++ bs) 0 0)).
Proof.
  revert cs. induction l as [|x l IH]; intros cs.
  - simpl. by rewrite app_nil_r.
  - rewrite for_each_cons. cbn [mapM]. destruct (g x) as [b|]; [| done].
    cbn [mbind option_bind]. rewrite add_block_init_Row.
    cbn [mbind option_bind]. rewrite IH.
    destruct (mapM g l) as [bs|]; [| done]. simpl. by rewrite <- app_assoc.
Qed.

Lemma index_of_nat {A} (l : list A) (k : nat) : Py.index l (Z.of_nat k) = l !! k.
Proof.
  unfold Py.index. destruct (Z.of_nat k <? 0) eqn:Hk.
  - apply Z.ltb_lt in Hk. lia.
  - by rewrite Nat2Z.id.
Qed.

Lemma range_of_nat (n : nat) : Py.range (Z.of_nat n) = Z.of_nat <$> seq 0 n.
Proof. unfold Py.range. by rewrite Nat2Z.id. Qed.

Lemma length_range (n : nat) : length (Py.range (Z.of_nat n)) = n.
Proof. by rewrite range_of_nat, length_fmap, length_seq. Qed.

Lemma elem_of_range (n : nat) (i : Z) :
  i ∈ Py.range (Z.of_nat n) ↔ ∃ k : nat, i = Z.of_nat k ∧ (k < n)%nat.
Proof.
  rewrite range_of_nat, list_elem_of_fmap. setoid_rewrite elem_of_seq.
  split; intros (k & ? & ?); exists k; split; [done | lia | done | lia].
Qed.

(** ** The columns the formatter builds *)

Lemma mapM_new_Element {A} (g : A → option Block) l bs :
  (∀ x b, g x = Some b → ∃ text, b = new_Element text) →
  mapM g l = Some bs →
  length bs = length l
  ∧ Forall (λ b, cell b = true) bs
  ∧ Forall (λ b, height b = 1) bs.
Proof.
  intros Hg Hbs. apply mapM_Some in Hbs.
  induction Hbs as [|x b l bs Hx _ IH]; [done |].
  destruct IH as (Hlen & Hcell & Hheight).
  destruct (Hg x b Hx) as [text ->].
  split_and!; [simpl; by rewrite Hlen | constructor | constructor]; try done.
  simpl. by rewrite !bool_decide_eq_true_2.
Qed.

Lemma cell_new_Element text : cell (new_Element text) = true.
Proof. simpl. by rewrite !bool_decide_eq_true_2. Qed.

Lemma cell_title text : cell (set_height 3 (new_Element text)) = true.
Proof. simpl. by rewrite !bool_decide_eq_true_2. Qed.

Lemma total_ones (f : Block → Z) bs :
  Forall (λ b, f b = 1) bs → total (f <$> bs) = Z.of_nat (length bs).
Proof.
  induction 1 as [|b bs Hb _ IH]; [done |].
  rewrite fmap_cons. change (total (?x :: ?l)) with (x + total l).
  rewrite IH, Hb. simpl length. lia.
Qed.

Lemma get_min_height_cell b : cell b = true → get_min_height b = 1.
Proof. by destruct b. Qed.

Lemma width_cell b : cell b = true → width b = get_min_width b.
Proof.
  destruct b; try done; simpl; intros [Hw _]%andb_prop;
    by apply bool_decide_eq_true in Hw.
Qed.

(** A column of a first block, a [HorizontalLine], the blocks of a loop,
    a [HorizontalLine] and a last block. *)
Lemma framed_cells (first last : Block) (bs : list Block) (k : nat) :
  cell first = true → cell last = true →
  length bs = k → Forall (λ b, cell b = true) bs → Forall (λ b, height b = 1) bs →
  let cells := [first; new_HorizontalLine] ++ bs ++ [new_HorizontalLine; last] in
  Forall (λ b, cell b = true) cells
  ∧ Z.of_nat (length cells) = Z.of_nat k + 4
  ∧ total (height <$> cells) = height first + Z.of_nat k + 2 + height last.
Proof.
  intros Hfirst Hlast Hlen Hcell Hheight cells. subst cells. split_and!.
  - repeat (apply Forall_app; split); try done; by repeat constructor.
  - rewrite !length_app. simpl. lia.
  - rewrite !fmap_app, !total_app, (total_ones height bs Hheight), Hlen.
    unfold total. simpl. lia.
Qed.

Section Formatter_facts.
Context {num : Type}.
Variable str : num → string.
Variable sum : list num → num.
Variable s_array : list num.
Variable c_array : list (list num).
Variable d_array : list num.

Lemma source_column_shape :
  ∃ cells,
    _create_source_column s_array = Some (init (Column cells 0 0))
    ∧ Forall (λ b, cell b = true) cells
    ∧ Z.of_nat (length cells) = Z.of_nat (length s_array) + 4
    ∧ total (height <$> cells) = Z.of_nat (length s_array) + 6.
Proof.
  set (g := λ i : Z, Some (new_Element ("A" +:+ Py.str_int (i + 1)))).
  destruct (mapM g (Py.range (Z.of_nat (length s_array)))) as [bs|] eqn:Hbs;
    last first.
  { apply mapM_None, Exists_exists in Hbs as (i & _ & Hi). done. }
  assert (∀ x b, g x = Some b → ∃ text, b = new_Element text) as Hg
    by (by intros x b [= <-]; eexists).
  destruct (mapM_new_Element g _ bs Hg Hbs) as (Hlen & Hcell & Hheight).
  rewrite length_range in Hlen.
  destruct (framed_cells (set_height 3 (new_Element "Source"))
              (new_Element "Demand") bs _ eq_refl eq_refl Hlen Hcell Hheight)
    as (Hcells & Hcount & Htotal).
  eexists. split; [| split_and!; [exact Hcells | exact Hcount |]].
  - unfold _create_source_column. change new_Column with (init (Column [] 0 0)).
    rewrite !add_block_init_Column. cbn [mbind option_bind app].
    rewrite !add_block_init_Column. cbn [mbind option_bind app].
    rewrite (for_each_ext _ (λ s x, b ← g x; add_block b s)) by done.
    rewrite for_each_add_block_Column, Hbs. cbn [mbind option_bind].
    rewrite !add_block_init_Column. cbn [mbind option_bind].
    rewrite !add_block_init_Column. cbn [mbind option_bind].
    by rewrite <- !app_assoc.
  - rewrite Htotal. simpl. lia.
Qed.

Lemma supply_column_shape :
  ∃ cells,
    _create_supply_column str sum s_array = Some (init (Column cells 0 0))
    ∧ Forall (λ b, cell b = true) cells
    ∧ Z.of_nat (length cells) = Z.of_nat (length s_array) + 4
    ∧ total (height <$> cells) = Z.of_nat (length s_array) + 6.
Proof.
  set (g := λ i : Z, s ← Py.index s_array i; Some (new_Element (str s))).
  destruct (mapM g (Py.range (Z.of_nat (length s_array)))) as [bs|] eqn:Hbs;
    last first.
  { apply mapM_None, Exists_exists in Hbs as (i & Hi & Hnone).
    apply elem_of_range in Hi as (k & -> & Hk). subst g. simpl in Hnone.
    rewrite index_of_nat in Hnone.
    destruct (lookup_lt_is_Some_2 s_array k Hk) as [x Hx].
    by rewrite Hx in Hnone. }
  assert (∀ x b, g x = Some b → ∃ text, b = new_Element text) as Hg.
  { intros x b Hx. subst g. simpl in Hx.
    destruct (Py.index s_array x); simplify_eq/=. by eexists. }
  destruct (mapM_new_Element g _ bs Hg Hbs) as (Hlen & Hcell & Hheight).
  rewrite length_range in Hlen.
  destruct (framed_cells (set_height 3 (new_Element "Supply"))
              (new_Element (str (sum s_array))) bs _ eq_refl
              (cell_new_Element _) Hlen Hcell Hheight)
    as (Hcells & Hcount & Htotal).
  eexists. split; [| split_and!; [exact Hcells | exact Hcount |]].
  - unfold _create_supply_column. change new_Column with (init (Column [] 0 0)).
    rewrite !add_block_init_Column. cbn [mbind option_bind app].
    rewrite !add_block_init_Column. cbn [mbind option_bind app].
    rewrite (for_each_ext _ (λ s x, b ← g x; add_block b s)); last first.
    { intros s x. subst g. simpl. by destruct (Py.index s_array x). }
    rewrite for_each_add_block_Column, Hbs. cbn [mbind option_bind].
    rewrite !add_block_init_Column. cbn [mbind option_bind].
    rewrite !add_block_init_Column. cbn [mbind option_bind].
    by rewrite <- !app_assoc.
  - rewrite Htotal. simpl. lia.
Qed.
Lemma destination_column_eq (i : Z) :
  _create_destination_column str s_array c_array d_array i =
  bs ← mapM (λ j, c ← cost c_array j i; Some (new_Element (str c)))
          (Py.range (Z.of_nat (length s_array)));
  d ← Py.index d_array i;
  Some (init (Column ([new_Element ("D" +:+ Py.str_int (i + 1)); new_HorizontalLine]
                      ++ bs ++ [new_HorizontalLine; new_Element (str d)]) 0 0)).
Proof.
  unfold _create_destination_column. change new_Column with (init (Column [] 0 0)).
  rewrite !add_block_init_Column. cbn [mbind option_bind app].
  rewrite !add_block_init_Column. cbn [mbind option_bind app].
  rewrite (for_each_ext _
             (λ s j, b ← (c ← cost c_array j i; Some (new_Element (str c)));
                     add_block b s)); last first.
  { intros s j. unfold cost. destruct (Py.index c_array j) as [row|]; [| done].
    simpl. by destruct (Py.index row i). }
  rewrite for_each_add_block_Column.
  destruct (mapM _ _) as [bs|]; [| done]. cbn [mbind option_bind].
  rewrite !add_block_init_Column. cbn [mbind option_bind].
  destruct (Py.index d_array i) as [d|]; [| done]. cbn [mbind option_bind].
  rewrite !add_block_init_Column. cbn [mbind option_bind].
  by rewrite <- !app_assoc.
Qed.

Lemma destination_column_shape (i : Z) (col : Block) :
  _create_destination_column str s_array c_array d_array i = Some col →
  ∃ cells,
    col = init (Column cells 0 0)
    ∧ Forall (λ b, cell b = true) cells
    ∧ Z.of_nat (length cells) = Z.of_nat (length s_array) + 4
    ∧ total (height <$> cells) = Z.of_nat (length s_array) + 4.
Proof.
  rewrite destination_column_eq. intros Hcol.
  destruct (mapM _ _) as [bs|] eqn:Hbs; [| done]. cbn [mbind option_bind] in Hcol.
  destruct (Py.index d_array i) as [d|]; [| done]. cbn [mbind option_bind] in Hcol.
  apply (inj Some) in Hcol as <-.
  assert (∀ j b, (c ← cost c_array j i; Some (new_Element (str c))) = Some b
                 → ∃ text, b = new_Element text) as Hg.
  { intros j b Hb. destruct (cost c_array j i); simplify_eq/=. by eexists. }
  destruct (mapM_new_Element _ _ bs Hg Hbs) as (Hlen & Hcell & Hheight).
  rewrite length_range in Hlen.
  destruct (framed_cells (new_Element ("D" +:+ Py.str_int (i + 1)))
              (new_Element (str d)) bs _ (cell_new_Element _)
              (cell_new_Element _) Hlen Hcell Hheight)
    as (Hcells & Hcount & Htotal).
  eexists. split_and!; [done | exact Hcells | exact Hcount |].
  rewrite Htotal. simpl. lia.
Qed.

Lemma destination_column_is_Some (k : nat) :
  is_Some (_create_destination_column str s_array c_array d_array (Z.of_nat k)) ↔
  (∀ j : nat, (j < length s_array)%nat →
     is_Some (cost c_array (Z.of_nat j) (Z.of_nat k)))
  ∧ (k < length d_array)%nat.
Proof.
  rewrite destination_column_eq, index_of_nat.
  rewrite <- (lookup_lt_is_Some d_array k).
  set (g := λ j, c ← cost c_array j (Z.of_nat k); Some (new_Element (str c))).
  assert (is_Some (mapM g (Py.range (Z.of_nat (length s_array)))) ↔
          ∀ j : nat, (j < length s_array)%nat →
            is_Some (cost c_array (Z.of_nat j) (Z.of_nat k))) as Hcosts.
  { rewrite mapM_is_Some, Forall_forall. split.
    - intros Hall j Hj. specialize (Hall (Z.of_nat j)).
      unfold compose, g in Hall.
      destruct (cost c_array (Z.of_nat j) (Z.of_nat k)); [done |].
      destruct Hall as [? Hall]; [| done]. apply elem_of_range. eauto.
    - intros Hall i Hi. apply elem_of_range in Hi as (j & -> & Hj).
      unfold compose, g. by destruct (Hall j Hj) as [c ->]. }
  rewrite <- Hcosts.
  destruct (mapM g _) as [bs|], (d_array !! k) as [d|]; simpl;
    split; try done; intros [[? ?] [? ?]]; done.
Qed.

Lemma destination_table_eq :
  _create_destination_table str s_array c_array d_array =
  cols ← mapM (_create_destination_column str s_array c_array d_array)
            (Py.range (Z.of_nat (length d_array)));
  Some (init (Column [new_Element "Destination"; new_HorizontalLine;
                      init (Row cols 0 0)] 0 0)).
Proof.
  unfold _create_destination_table. change new_Row with (init (Row [] 0 0)).
  rewrite for_each_add_block_Row.
  destruct (mapM _ _) as [cols|]; [| done]. cbn [mbind option_bind app].
  change new_Column with (init (Column [] 0 0)).
  rewrite !add_block_init_Column. cbn [mbind option_bind app].
  rewrite !add_block_init_Column. cbn [mbind option_bind app].
  by rewrite !add_block_init_Column.
Qed.

Lemma format_eq :
  format str sum s_array c_array d_array =
  source_column ← _create_source_column s_array;
  destination_table ← _create_destination_table str s_array c_array d_array;
  supply_column ← _create_supply_column str sum s_array;
  Some (init (Column
          [new_HorizontalLine;
           init (Row [new_VerticalLine; source_column; new_VerticalLine;
                      destination_table; new_VerticalLine; supply_column;
                      new_VerticalLine] 0 0);
           new_HorizontalLine] 0 0)).
Proof.
  unfold format, _create_table.
  destruct (_create_source_column s_array) as [source_column|]; [| done].
  destruct (_create_destination_table _ _ _ _) as [destination_table|]; [| done].
  destruct (_create_supply_column _ _ _) as [supply_column|]; [| done].
  cbn [mbind option_bind]. change new_Row with (init (Row [] 0 0)).
  do 7 (rewrite add_block_init_Row; cbn [mbind option_bind app]).
  change new_Column with (init (Column [] 0 0)).
  do 3 (rewrite add_block_init_Column; cbn [mbind option_bind app]).
  done.
Qed.
End Formatter_facts.

(** ** When the table can be built *)

Lemma source_column_is_Some {num} (s_array : list num) :
  is_Some (_create_source_column s_array).
Proof. destruct (source_column_shape s_array) as (cells & -> & _). by eexists. Qed.

Lemma supply_column_is_Some {num} str sum (s_array : list num) :
  is_Some (_create_supply_column str sum s_array).
Proof.
  destruct (supply_column_shape str sum s_array) as (cells & -> & _). by eexists.
Qed.

Lemma format_is_Some_destination_columns {num} str sum
    (s_array : list num) c_array (d_array : list num) :
  is_Some (format str sum s_array c_array d_array) ↔
  is_Some (mapM (_create_destination_column str s_array c_array d_array)
             (Py.range (Z.of_nat (length d_array)))).
Proof.
  rewrite format_eq, destination_table_eq.
  destruct (source_column_is_Some s_array) as [source_column ->].
  destruct (supply_column_is_Some str sum s_array) as [supply_column ->].
  destruct (mapM _ _) as [cols|]; simpl; split; intros [? ?]; done.
Qed.

(** X7. [format()] returns a table exactly when [c_array] has an entry
    [c_array[j][i]] for every source [j] and every destination [i]; the
    lengths of [s_array] and [d_array] alone decide how many there are,
    and with no source or no destination [c_array] is not read at all. *)
Theorem format_is_Some {num : Type} (str : num → string) (sum : list num → num)
    (s_array : list num) (c_array : list (list num)) (d_array : list num) :
  is_Some (format str sum s_array c_array d_array) ↔
  ∀ i j : nat, (i < length d_array)%nat → (j < length s_array)%nat →
    is_Some (row ← c_array !! j; row !! i).
Proof.
  rewrite format_is_Some_destination_columns, mapM_is_Some, Forall_forall.
  split.
  - intros Hall i j Hi Hj.
    assert (Z.of_nat i ∈ Py.range (Z.of_nat (length d_array))) as Hin
      by (apply elem_of_range; eauto).
    apply Hall, destination_column_is_Some in Hin as [Hcost _].
    specialize (Hcost j Hj). unfold cost in Hcost.
    rewrite index_of_nat in Hcost. destruct (c_array !! j) as [row|]; [| done].
    simpl in *. by rewrite index_of_nat in Hcost.
  - intros Hall x Hx. apply elem_of_range in Hx as (i & -> & Hi).
    apply destination_column_is_Some. split; [| done]. intros j Hj.
    specialize (Hall i j Hi Hj). unfold cost. rewrite index_of_nat.
    destruct (c_array !! j) as [row|]; [| done]. simpl in *.
    by rewrite index_of_nat.
Qed.

Lemma format_is_Some_witness :
  is_Some (format IntegralFloat.str IntegralFloat.sum [7; 8] [[1; 2]; [3; 4]] [5; 6])
  ∧ format IntegralFloat.str IntegralFloat.sum [7; 8] [[1; 2]; [3]] [5; 6] = None.
Proof.
  split.
  - apply format_is_Some. intros i j Hi Hj. simpl in Hi, Hj.
    destruct j as [|[|j]]; [| | lia]; (destruct i as [|[|i]]; [| | lia]);
      by eexists.
  - apply eq_None_not_Some. intros H.
    destruct (proj1 (format_is_Some _ _ _ _ _) H 1%nat 1%nat) as [? ?];
      [simpl; lia.. | done].
Defined.

(** ** The sizes of the table *)

Lemma width_init b : width (init b) = get_min_width b.
Proof. by destruct b. Qed.

Lemma height_init b : height (init b) = get_min_height b.
Proof. by destruct b. Qed.

Lemma get_min_width_init b : get_min_width (init b) = get_min_width b.
Proof. apply get_min_width_with_size. Qed.

Lemma get_min_height_init b : get_min_height (init b) = get_min_height b.
Proof. apply get_min_height_with_size. Qed.

Lemma fits_with_size w h w0 h0 b : fits w h (with_size w0 h0 b) = fits w h b.
Proof. by destruct b. Qed.

Lemma fits_Column_iff w h bs w0 h0 :
  fits w h (Column bs w0 h0) = true ↔
  h = total (height <$> bs)
  ∧ Forall (λ c, width c ≤ w ∧ fits w (height c) c = true) bs.
Proof.
  simpl. rewrite andb_true_iff, bool_decide_eq_true, forallb_forall, Forall_forall.
  setoid_rewrite <- list_elem_of_In. setoid_rewrite andb_true_iff.
  by setoid_rewrite bool_decide_eq_true.
Qed.

Lemma fits_Row_iff w h bs w0 h0 :
  fits w h (Row bs w0 h0) = true ↔
  w = total (width <$> bs)
  ∧ (bs = [] → h = 0)
  ∧ Forall (λ c, height c ≤ h ∧ fits (width c) h c = true) bs.
Proof.
  simpl. rewrite !andb_true_iff, !bool_decide_eq_true, forallb_forall, Forall_forall.
  setoid_rewrite <- list_elem_of_In. setoid_rewrite andb_true_iff.
  setoid_rewrite bool_decide_eq_true. tauto.
Qed.

Lemma well_sized_cell b : cell b = true → well_sized b = true.
Proof.
  destruct b as [t w h|w h| | |]; try done; simpl;
    intros [Hw Hh]%andb_prop; apply bool_decide_eq_true in Hw, Hh;
    unfold sized; simpl; rewrite !bool_decide_eq_true_2; try done; lia.
Qed.

Lemma well_sized_init_Column bs :
  Forall (λ c, well_sized c = true) bs → well_sized (init (Column bs 0 0)) = true.
Proof.
  intros Hbs. apply well_sized_unfold.
  rewrite width_init, height_init, get_min_width_init, get_min_height_init.
  done.
Qed.

Lemma well_sized_init_Row bs :
  Forall (λ c, well_sized c = true) bs → well_sized (init (Row bs 0 0)) = true.
Proof.
  intros Hbs. apply well_sized_unfold.
  rewrite width_init, height_init, get_min_width_init, get_min_height_init.
  done.
Qed.

Lemma fits_cell w b :
  cell b = true → width b ≤ w → fits w (height b) b = true.
Proof.
  destruct b as [t w0 h0|w0 h0| | |]; try done; simpl;
    intros [Hw Hh]%andb_prop Hle; apply bool_decide_eq_true in Hw, Hh;
    rewrite !bool_decide_eq_true_2; try done; lia.
Qed.

Lemma maximum_of_upper (l : list Z) (m x : Z) : maximum_of l m → x ∈ l → x ≤ m.
Proof.
  intros Hm Hx. destruct l as [|y l]; [by apply elem_of_nil in Hx |].
  destruct Hm as [_ Hall]. rewrite Forall_forall in Hall. by apply Hall.
Qed.

Lemma maximum_of_const (l : list Z) (m v : Z) :
  maximum_of l m → l ≠ [] → Forall (λ x, x = v) l → m = v.
Proof.
  intros Hm Hl Hall. destruct l as [|y l]; [done |].
  destruct Hm as [Hin _]. rewrite Forall_forall in Hall. by apply Hall.
Qed.

(** A column of cells has its minimal size, is as high as it has cells,
    and at its own or a larger width formats to the lines of its cells. *)
Lemma cells_column_facts k h col :
  cells_column k h col →
  (width col = get_min_width col ∧ height col = k ∧ get_min_height col = k)
  ∧ well_sized col = true
  ∧ ∀ w, width col ≤ w → fits w h col = true.
Proof.
  intros (cells & -> & Hcell & <- & <-).
  rewrite width_init, height_init, get_min_width_init, get_min_height_init.
  rewrite get_min_height_Column.
  rewrite (total_ones get_min_height cells)
    by (eapply Forall_impl; [exact Hcell | apply get_min_height_cell]).
  split_and!; try done.
  - apply well_sized_init_Column.
    eapply Forall_impl; [exact Hcell | apply well_sized_cell].
  - intros w Hw. unfold init. rewrite fits_with_size. apply fits_Column_iff.
    split; [done |]. rewrite Forall_forall in Hcell |- *. intros c Hc.
    assert (width c ≤ w) as Hcw.
    { rewrite (width_cell c) by by apply Hcell.
      etrans; [| exact Hw]. eapply maximum_of_upper; [apply get_min_width_Column |].
      by apply list_elem_of_fmap_2. }
    split; [done |]. apply fits_cell; [by apply Hcell | done].
Qed.

Lemma rectangle_ignore_height bs w h h' th :
  rectangle w th (lines_of (Column bs w h)) →
  rectangle w th (lines_of (Column bs w h')).
Proof. by rewrite !lines_of_Column. Qed.

Lemma cells_column_lines k h col w h' :
  cells_column k h col → width col ≤ w →
  rectangle w h (lines_of (with_size w h' col)).
Proof.
  intros Hcol Hw. destruct (cells_column_facts k h col Hcol) as (_ & _ & Hfits).
  specialize (Hfits w Hw). apply fits_rectangle in Hfits.
  destruct Hcol as (cells & -> & _). unfold init in *.
  cbn [with_size] in *. by apply (rectangle_ignore_height _ _ h).
Qed.

(** The row of the destination columns. *)
Lemma columns_row_facts (k : Z) (cols : list Block) :
  Forall (cells_column k k) cols →
  let row := init (Row cols 0 0) in
  let hc := match cols with [] => 0 | _ => k end in
  (width row = total (width <$> cols) ∧ height row = hc)
  ∧ (get_min_width row = width row ∧ get_min_height row = hc)
  ∧ well_sized row = true
  ∧ fits (width row) hc row = true.
Proof.
  intros Hcols row hc.
  assert (get_min_width row = total (width <$> cols)) as Hw.
  { subst row. rewrite get_min_width_init, get_min_width_Row. f_equal.
    apply Forall_fmap_ext. eapply Forall_impl; [exact Hcols |].
    intros col Hcol. symmetry. by apply (cells_column_facts k k). }
  assert (get_min_height row = hc) as Hh.
  { subst row hc. rewrite get_min_height_init.
    destruct cols as [|col cols]; [done |].
    eapply maximum_of_const; [apply get_min_height_Row | done |].
    apply Forall_fmap. eapply Forall_impl; [exact Hcols |].
    intros c Hc. by apply (cells_column_facts k k). }
  assert (width row = get_min_width row) as Hwr
    by (subst row; by rewrite width_init, get_min_width_init).
  assert (height row = get_min_height row) as Hhr
    by (subst row; by rewrite height_init, get_min_height_init).
  split_and!; try congruence.
  - apply well_sized_init_Row. eapply Forall_impl; [exact Hcols |].
    intros c Hc. by apply (cells_column_facts k k).
  - rewrite Hwr, Hw. unfold row, init. rewrite fits_with_size.
    apply fits_Row_iff. split_and!; [done | by intros -> |].
    rewrite Forall_forall in Hcols |- *. intros col Hin.
    destruct (cells_column_facts k k col (Hcols col Hin)) as ((_ & Hch & _) & _ & Hf).
    assert (hc = k) as -> by (subst hc; by destruct cols; [apply elem_of_nil in Hin |]).
    split; [lia | by apply Hf].
Qed.

Lemma get_min_Column_3 a b c w h :
  get_min_width (Column [a; b; c] w h) =
    Z.max (Z.max (get_min_width a) (get_min_width b)) (get_min_width c)
  ∧ get_min_height (Column [a; b; c] w h) =
    get_min_height a + get_min_height b + get_min_height c.
Proof.
  split; [done |]. rewrite get_min_height_Column. unfold total.
  cbn [fmap list_fmap foldr]. lia.
Qed.

Lemma lines_of_Row_ignore_width bs w w' h :
  lines_of (Row bs w h) = lines_of (Row bs w' h).
Proof. by rewrite !lines_of_Row. Qed.

(** The destination table: the title, a line, the row of the columns. *)
Lemma destination_table_facts (k : Z) (cols : list Block) :
  0 ≤ k →
  Forall (cells_column k k) cols →
  let dest := init (Column [new_Element "Destination"; new_HorizontalLine;
                            init (Row cols 0 0)] 0 0) in
  let hc := match cols with [] => 0 | _ => k end in
  (width dest = Z.max 13 (total (width <$> cols)) ∧ height dest = 2 + hc)
  ∧ (get_min_width dest = width dest ∧ get_min_height dest = height dest)
  ∧ well_sized dest = true
  ∧ (∀ w h, Z.of_nat (length (lines_of (with_size w h dest))) = 2 + hc)
  ∧ (13 ≤ total (width <$> cols) → fits (width dest) (2 + hc) dest = true).
Proof.
  intros Hk Hcols dest hc.
  destruct (columns_row_facts k cols Hcols)
    as ((Hrw & Hrh) & (Hrmw & Hrmh) & Hrs & Hrf).
  fold hc in Hrh, Hrmh, Hrf. set (row := init (Row cols 0 0)) in *.
  assert (0 ≤ hc) as Hhc by (subst hc; by destruct cols).
  assert (0 ≤ width row) as Hrw0
    by (rewrite <- Hrmw; apply get_min_width_nonneg).
  destruct (get_min_Column_3 (new_Element "Destination") new_HorizontalLine row 0 0)
    as [Hmw Hmh].
  rewrite Hrmw in Hmw. rewrite Hrmh in Hmh.
  change (get_min_width (new_Element "Destination")) with 13 in Hmw.
  change (get_min_width new_HorizontalLine) with 0 in Hmw.
  change (get_min_height (new_Element "Destination")) with 1 in Hmh.
  change (get_min_height new_HorizontalLine) with 1 in Hmh.
  assert (width dest = Z.max 13 (width row)) as Hw
    by (subst dest; rewrite width_init; lia).
  assert (height dest = 2 + hc) as Hh
    by (subst dest; rewrite height_init; lia).
  split_and!.
  - by rewrite Hw, Hrw.
  - done.
  - subst dest. by rewrite get_min_width_init, width_init.
  - subst dest. by rewrite get_min_height_init, height_init.
  - apply well_sized_init_Column. by repeat constructor.
  - intros w h. subst dest. unfold init at 1. cbn [with_size].
    rewrite lines_of_Column. cbn [fmap list_fmap concat].
    rewrite app_nil_r, !length_app, !Nat2Z.inj_add.
    assert (Z.of_nat (length (lines_of (set_width w row))) = hc) as ->.
    { assert (∀ w', lines_of (with_size w' hc row) = lines_of (Row cols 0 hc))
        as Hlines
        by (intros w'; subst row; apply (lines_of_Row_ignore_width cols w' 0 hc)).
      apply fits_rectangle in Hrf as [Hlen _].
      rewrite Hlines in Hlen. by rewrite set_width_with_size, Hrh, Hlines. }
    change (lines_of (set_width w new_HorizontalLine))
      with [Py.str_mul HORIZONTAL_DELIMITER (Z.max 0 w)].
    change (set_width w (new_Element "Destination"))
      with (Element "Destination" (Z.max 13 w) 1).
    rewrite lines_of_Element. simpl length. lia.
  - intros H13. rewrite Hw, Hrw, Z.max_r by done. rewrite <- Hrw.
    subst dest. unfold init at 1. rewrite fits_with_size.
    apply fits_Column_iff. split.
    + cbn [fmap list_fmap]. rewrite Hrh. unfold total. simpl. lia.
    + apply Forall_cons. split.
      { change (width (new_Element "Destination")) with 13.
        split; [lia |].
        apply (fits_cell _ (new_Element "Destination")); [apply cell_new_Element |].
        change (width (new_Element "Destination")) with 13. lia. }
      apply Forall_cons. split.
      { change (width new_HorizontalLine) with 0. split; [lia |].
        apply (fits_cell _ new_HorizontalLine); [done |].
        change (width new_HorizontalLine) with 0. lia. }
      apply Forall_cons. split; [| by apply Forall_nil].
      split; [lia | by rewrite Hrh].
Qed.

Lemma get_min_Row_7 a b c d e f g w h :
  get_min_width (Row [a; b; c; d; e; f; g] w h) =
    get_min_width a + get_min_width b + get_min_width c + get_min_width d
    + get_min_width e + get_min_width f + get_min_width g
  ∧ get_min_height (Row [a; b; c; d; e; f; g] w h) =
    Z.max (Z.max (Z.max (Z.max (Z.max (Z.max
      (get_min_height a) (get_min_height b)) (get_min_height c))
      (get_min_height d)) (get_min_height e)) (get_min_height f))
      (get_min_height g).
Proof.
  split; [| done]. rewrite get_min_width_Row. unfold total.
  cbn [fmap list_fmap foldr]. lia.
Qed.

Lemma lines_of_with_size_init_Row bs w h :
  lines_of (with_size w h (init (Row bs 0 0))) = lines_of (Row bs 0 h).
Proof. apply (lines_of_Row_ignore_width bs w 0 h). Qed.

Lemma length_lines_VerticalLine h :
  0 ≤ h → Z.of_nat (length (lines_of (set_height h new_VerticalLine))) = h.
Proof.
  intros Hh. change (lines_of (set_height h new_VerticalLine))
    with (Py.list_mul VERTICAL_DELIMITER (Z.max 0 h)).
  unfold Py.list_mul. rewrite length_replicate. lia.
Qed.

Lemma length_lines_set_height k h hr col :
  cells_column k h col →
  Z.of_nat (length (lines_of (set_height hr col))) = h.
Proof.
  intros Hcol. rewrite set_height_with_size.
  by destruct (cells_column_lines k h col (width col) (Z.max (height col) hr)
                 Hcol ltac:(lia)) as [Hlen _].
Qed.

(** The row of the three parts between vertical lines, and the table
    around it, for a source column and a supply column of [k] cells and
    [k + 2] lines and a destination table of [hd] lines. *)
Lemma table_facts (k hd : Z) (src dest sup : Block) :
  4 ≤ k → 2 ≤ hd ≤ k + 2 →
  cells_column k (k + 2) src → cells_column k (k + 2) sup →
  get_min_width dest = width dest → get_min_height dest = height dest →
  height dest = hd → well_sized dest = true →
  (∀ w h, Z.of_nat (length (lines_of (with_size w h dest))) = hd) →
  let row := init (Row [new_VerticalLine; src; new_VerticalLine; dest;
                        new_VerticalLine; sup; new_VerticalLine] 0 0) in
  let table := init (Column [new_HorizontalLine; row; new_HorizontalLine] 0 0) in
  well_sized table = true
  ∧ Z.of_nat (length (lines_of table)) = k + 4
  ∧ height table = Z.max k hd + 2
  ∧ (hd = k + 2 → fits (width dest) hd dest = true → tight table = true).
Proof.
  intros Hk Hhd Hsrc Hsup Hdw Hdh Hdhd Hds Hdlines row table.
  destruct (cells_column_facts _ _ _ Hsrc) as ((Hsw & Hsh & Hsmh) & Hss & Hsf).
  destruct (cells_column_facts _ _ _ Hsup) as ((Hpw & Hph & Hpmh) & Hps & Hpf).
  destruct (get_min_Row_7 new_VerticalLine src new_VerticalLine dest
              new_VerticalLine sup new_VerticalLine 0 0) as [Hrmw Hrmh].
  change (get_min_width new_VerticalLine) with 1 in Hrmw.
  change (get_min_height new_VerticalLine) with 0 in Hrmh.
  rewrite Hsmh, Hpmh, Hdh, Hdhd in Hrmh.
  assert (height row = Z.max k hd) as Hrh
    by (subst row; rewrite height_init; lia).
  assert (width row = 4 + width src + width dest + width sup) as Hrw
    by (subst row; rewrite width_init; lia).
  assert (get_min_width row = width row) as Hrmw'
    by (subst row; by rewrite get_min_width_init, width_init).
  assert (get_min_height row = height row) as Hrmh'
    by (subst row; by rewrite get_min_height_init, height_init).
  assert (0 ≤ width row) as Hrw0 by (rewrite <- Hrmw'; apply get_min_width_nonneg).
  assert (well_sized row = true) as Hrs
    by (apply well_sized_init_Row; by repeat constructor).
  destruct (get_min_Column_3 new_HorizontalLine row new_HorizontalLine 0 0)
    as [Htmw Htmh].
  change (get_min_width new_HorizontalLine) with 0 in Htmw.
  change (get_min_height new_HorizontalLine) with 1 in Htmh.
  rewrite Hrmw' in Htmw. rewrite Hrmh', Hrh in Htmh.
  assert (width table = width row) as Htw
    by (subst table; rewrite width_init; lia).
  assert (height table = Z.max k hd + 2) as Hth
    by (subst table; rewrite height_init; lia).
  assert (∀ w, Z.of_nat (length (lines_of (with_size w (height row) row))) = k + 2)
    as Hrlines.
  { intros w. rewrite Hrh. unfold row.
    rewrite lines_of_with_size_init_Row, lines_of_Row.
    cbn [fmap list_fmap foldl beside].
    rewrite !length_beside.
    pose proof (length_lines_VerticalLine (Z.max k hd) ltac:(lia)) as HVL.
    pose proof (length_lines_set_height _ _ (Z.max k hd) _ Hsrc) as Hsl.
    pose proof (length_lines_set_height _ _ (Z.max k hd) _ Hsup) as Hpl.
    pose proof (Hdlines (width dest) (Z.max (height dest) (Z.max k hd))) as Hdl.
    rewrite <- set_height_with_size in Hdl. lia. }
  split_and!.
  - apply well_sized_init_Column. by repeat constructor.
  - subst table. unfold init at 1. cbn [with_size]. rewrite lines_of_Column.
    cbn [fmap list_fmap concat]. rewrite app_nil_r, !length_app, !Nat2Z.inj_add.
    rewrite (set_width_with_size _ row), Hrlines.
    change (lines_of (set_width ?w new_HorizontalLine))
      with [Py.str_mul HORIZONTAL_DELIMITER (Z.max 0 w)].
    simpl length. lia.
  - done.
  - intros -> Hdf. unfold tight. rewrite Htw, Hth.
    rewrite Z.max_r in * by lia.
    assert (fits (width row) (k + 2) row = true) as Hrf.
    { rewrite Hrw. unfold row, init. rewrite fits_with_size.
      apply fits_Row_iff. split_and!.
      - unfold total. cbn [fmap list_fmap foldr].
        change (width new_VerticalLine) with 1. lia.
      - done.
      - assert (height new_VerticalLine ≤ k + 2
                ∧ fits (width new_VerticalLine) (k + 2) new_VerticalLine = true)
          as HVL.
        { change (height new_VerticalLine) with 0. split; [lia |].
          simpl. rewrite (bool_decide_eq_true_2 (0 ≤ k + 2)) by lia. done. }
        repeat (apply Forall_cons; split); try exact HVL; try by apply Forall_nil.
        + split; [lia | apply Hsf; lia].
        + split; [lia | done].
        + split; [lia | apply Hpf; lia]. }
    unfold table, init. rewrite fits_with_size.
    apply fits_Column_iff. split.
    + unfold total. cbn [fmap list_fmap foldr]. rewrite Hrh.
      change (height new_HorizontalLine) with 1. lia.
    + assert (width new_HorizontalLine ≤ width row
              ∧ fits (width row) (height new_HorizontalLine) new_HorizontalLine = true)
        as HHL.
      { change (width new_HorizontalLine) with 0. split; [lia |].
        apply (fits_cell _ new_HorizontalLine); [done |].
        change (width new_HorizontalLine) with 0. lia. }
      repeat (apply Forall_cons; split); try exact HHL; try by apply Forall_nil.
      split; [lia | by rewrite Hrh].
Qed.

(** ** The table [format()] returns *)

Section Table_facts.
Context {num : Type}.
Variable str : num → string.
Variable sum : list num → num.
Variable s_array : list num.
Variable c_array : list (list num).
Variable d_array : list num.

Lemma destination_columns_cells (l : list Z) (cols : list Block) :
  mapM (_create_destination_column str s_array c_array d_array) l = Some cols →
  Forall (cells_column (Z.of_nat (length s_array) + 4)
            (Z.of_nat (length s_array) + 4)) cols.
Proof.
  intros Hcols. apply mapM_Some in Hcols.
  induction Hcols as [|i col l cols Hcol _ IH]; constructor; [| done].
  by apply destination_column_shape in Hcol.
Qed.

Lemma format_facts (table : Block) :
  format str sum s_array c_array d_array = Some table →
  ∃ cols,
    mapM (_create_destination_column str s_array c_array d_array)
      (Py.range (Z.of_nat (length d_array))) = Some cols
    ∧ well_sized table = true
    ∧ Z.of_nat (length (lines_of table)) = Z.of_nat (length s_array) + 8
    ∧ (13 ≤ total (width <$> cols) →
       tight table = true ∧ height table = Z.of_nat (length s_array) + 8).
Proof.
  rewrite format_eq, destination_table_eq. intros Htable.
  destruct (source_column_shape s_array) as (scells & Hsrc & Hscells).
  destruct (supply_column_shape str sum s_array) as (pcells & Hsup & Hpcells).
  rewrite Hsrc, Hsup in Htable. cbn [mbind option_bind] in Htable.
  destruct (mapM _ _) as [cols|] eqn:Hcols; [| done].
  cbn [mbind option_bind] in Htable. apply (inj Some) in Htable as <-.
  exists cols. split; [done |].
  set (k := Z.of_nat (length s_array) + 4).
  assert (4 ≤ k) as Hk by lia.
  pose proof (destination_columns_cells _ _ Hcols) as Hcells. fold k in Hcells.
  destruct (destination_table_facts k cols ltac:(lia) Hcells)
    as ((Hdw & Hdh) & (Hdmw & Hdmh) & Hds & Hdlines & Hdfits).
  set (hc := match cols with [] => 0 | _ => k end) in *.
  assert (0 ≤ hc ≤ k) as Hhc by (subst hc; destruct cols; lia).
  assert (cells_column k (k + 2) (init (Column scells 0 0))) as Hs.
  { exists scells. destruct Hscells as (? & ? & ?). split_and!; [done..| lia]. }
  assert (cells_column k (k + 2) (init (Column pcells 0 0))) as Hp.
  { exists pcells. destruct Hpcells as (? & ? & ?). split_and!; [done..| lia]. }
  destruct (table_facts k (2 + hc) _ _ _ Hk ltac:(lia) Hs Hp Hdmw Hdmh Hdh Hds Hdlines)
    as (Hts & Htlines & Hth & Htight).
  split_and!; [done | lia |]. intros H13.
  assert (hc = k) as Hhck.
  { subst hc. destruct cols; [| done]. unfold total in H13. simpl in H13. lia. }
  split; [| lia]. apply Htight; [lia |]. by apply Hdfits.
Qed.
End Table_facts.

(** X8. In the table [format()] returns every block is at least as wide
    as its minimal width and at least as high as its minimal height. *)
Theorem format_well_sized {num : Type} (str : num → string) (sum : list num → num)
    (s_array : list num) (c_array : list (list num)) (d_array : list num)
    (table : Block) :
  format str sum s_array c_array d_array = Some table →
  well_sized table = true.
Proof.
  intros Htable. by destruct (format_facts _ _ _ _ _ _ Htable) as (cols & _ & ? & _).
Qed.

(** X9. The table [format()] returns formats to [len(s_array) + 8] lines,
    whatever the number of destinations: the two outer lines, the three
    lines of the titles, a line, one line per source, a line and the line
    of the demands. *)
Theorem format_line_count {num : Type} (str : num → string) (sum : list num → num)
    (s_array : list num) (c_array : list (list num)) (d_array : list num)
    (table : Block) :
  format str sum s_array c_array d_array = Some table →
  Z.of_nat (length (lines_of table)) = Z.of_nat (length s_array) + 8.
Proof.
  intros Htable.
  by destruct (format_facts _ _ _ _ _ _ Htable) as (cols & _ & _ & ? & _).
Qed.

(** X10. When the destination columns are together at least 13 characters
    wide, the width of the cell of the title ["Destination"], the table
    [format()] returns is tight: it formats to [len(s_array) + 8] lines
    that are all as long as the table is wide. *)
Theorem format_rectangle {num : Type} (str : num → string) (sum : list num → num)
    (s_array : list num) (c_array : list (list num)) (d_array : list num)
    (table : Block) (cols : list Block) :
  format str sum s_array c_array d_array = Some table →
  mapM (_create_destination_column str s_array c_array d_array)
    (Py.range (Z.of_nat (length d_array))) = Some cols →
  13 ≤ total (width <$> cols) →
  tight table = true
  ∧ rectangle (width table) (Z.of_nat (length s_array) + 8) (lines_of table).
Proof.
  intros Htable Hcols H13.
  destruct (format_facts _ _ _ _ _ _ Htable) as (cols' & Hcols' & _ & _ & Htight).
  rewrite Hcols in Hcols'. apply (inj Some) in Hcols' as <-.
  destruct (Htight H13) as [Ht Hh]. split; [done |].
  apply fits_rectangle in Ht. by rewrite with_size_id, Hh in Ht.
Qed.

Lemma format_well_sized_witness :
  ∃ table,
    format IntegralFloat.str IntegralFloat.sum [7] [[1]] [5] = Some table
    ∧ well_sized table = true.
Proof.
  destruct (format IntegralFloat.str IntegralFloat.sum [7] [[1]] [5])
    as [table|] eqn:H.
  - exists table. split; [reflexivity | exact (format_well_sized _ _ _ _ _ _ H)].
  - vm_compute in H. discriminate.
Defined.

Lemma format_line_count_witness :
  ∃ table,
    format IntegralFloat.str IntegralFloat.sum [7; 8] [[1]; [2]] [5] = Some table
    ∧ Z.of_nat (length (lines_of table)) = 10.
Proof.
  destruct (format IntegralFloat.str IntegralFloat.sum [7; 8] [[1]; [2]] [5])
    as [table|] eqn:H.
  - exists table. split; [reflexivity | exact (format_line_count _ _ _ _ _ _ H)].
  - vm_compute in H. discriminate.
Defined.

Lemma format_rectangle_witness :
  ∃ table,
    format IntegralFloat.str IntegralFloat.sum [1] [[2; 3; 4]] [6; 7; 8]
      = Some table
    ∧ tight table = true
    ∧ rectangle (width table) 9 (lines_of table).
Proof.
  destruct (format IntegralFloat.str IntegralFloat.sum [1] [[2; 3; 4]] [6; 7; 8])
    as [table|] eqn:H; [| vm_compute in H; discriminate].
  destruct (mapM (_create_destination_column IntegralFloat.str [1] [[2; 3; 4]]
                    [6; 7; 8]) (Py.range (Z.of_nat (length [6; 7; 8]))))
    as [cols|] eqn:Hcols; [| vm_compute in Hcols; discriminate].
  assert (13 ≤ total (width <$> cols)) as H13.
  { vm_compute in Hcols. apply (inj Some) in Hcols as <-. vm_compute. discriminate. }
  exists table. split; [reflexivity |].
  exact (format_rectangle _ _ _ _ _ _ _ H Hcols H13).
Defined.

(** ** The lines of the title and of the labels *)

Lemma rectangle_lookup w h lines (i : nat) :
  rectangle w h lines → Z.of_nat i < h →
  ∃ x, lines !! i = Some x ∧ Py.len x = w.
Proof.
  intros [Hlen Hall] Hi.
  destruct (lookup_lt_is_Some_2 lines i ltac:(lia)) as [x Hx].
  exists x. split; [done |]. by apply (Forall_lookup_1 _ _ _ _ Hall Hx).
Qed.

Lemma len_str_concat (l : list string) : Py.len (str_concat l) = total_len l.
Proof.
  unfold total_len, total, str_concat.
  induction l as [|s l IH]; [done |]. simpl. rewrite len_append, IH. done.
Qed.

Lemma lines_of_with_size_init_Column bs w h :
  lines_of (with_size w h (init (Column bs 0 0))) =
  concat ((λ c, lines_of (set_width w c)) <$> bs).
Proof. apply lines_of_Column. Qed.

Lemma table_row_line (src dest sup : Block) (w hr : Z) (i : nat) a b od :
  Z.of_nat i < hr →
  lines_of (set_height hr src) !! i = Some a →
  lines_of (set_height hr sup) !! i = Some b →
  lines_of (set_height hr dest) !! i = od →
  lines_of (Row [new_VerticalLine; src; new_VerticalLine; dest;
                 new_VerticalLine; sup; new_VerticalLine] w hr) !! i =
  Some (str_concat (["|"; a; "|"] ++ option_list od ++ ["|"; b; "|"])).
Proof.
  intros Hi Ha Hb Hod. rewrite lines_of_Row, lookup_foldl_beside_nil.
  cbn [fmap list_fmap omap list_omap]. rewrite Ha, Hb, Hod.
  assert (lines_of (set_height hr new_VerticalLine) !! i = Some "|") as ->.
  { change (lines_of (set_height hr new_VerticalLine))
      with (replicate (Z.to_nat (Z.max 0 hr)) "|").
    apply lookup_replicate_2. lia. }
  by destruct od.
Qed.

(** X11. The second line of the table [format()] returns, with the title
    ["Destination"], is longer than its fourth line, with the labels of
    the destinations, by [max(13, w) - w] characters, [w] being the width
    of the destination columns together: the two are equally long exactly
    when the destination columns are at least 13 characters wide, and
    otherwise the table is not a rectangle. *)
Theorem format_title_and_label_lines {num : Type} (str : num → string)
    (sum : list num → num) (s_array : list num) (c_array : list (list num))
    (d_array : list num) (table : Block) (cols : list Block) :
  format str sum s_array c_array d_array = Some table →
  mapM (_create_destination_column str s_array c_array d_array)
    (Py.range (Z.of_nat (length d_array))) = Some cols →
  ∃ title labels,
    lines_of table !! 1%nat = Some title
    ∧ lines_of table !! 3%nat = Some labels
    ∧ Py.len title - Py.len labels =
      Z.max 13 (total (width <$> cols)) - total (width <$> cols).
Proof.
  rewrite format_eq, destination_table_eq. intros Htable Hcols.
  destruct (source_column_shape s_array) as (scells & Hsrc & Hscells).
  destruct (supply_column_shape str sum s_array) as (pcells & Hsup & Hpcells).
  rewrite Hsrc, Hsup, Hcols in Htable. cbn [mbind option_bind] in Htable.
  apply (inj Some) in Htable as <-.
  set (k := Z.of_nat (length s_array) + 4).
  assert (4 ≤ k) as Hk by lia.
  pose proof (destination_columns_cells _ _ _ _ _ _ Hcols) as Hcells.
  fold k in Hcells.
  destruct (columns_row_facts k cols Hcells)
    as ((Hcw & Hch) & _ & _ & Hcf).
  destruct (destination_table_facts k cols ltac:(lia) Hcells)
    as ((Hdw & Hdh) & (Hdmw & Hdmh) & _).
  set (hc := match cols with [] => 0 | _ => k end) in *.
  assert (0 ≤ hc ≤ k) as Hhc by (subst hc; destruct cols; lia).
  set (W := total (width <$> cols)) in *.
  set (colsrow := init (Row cols 0 0)) in *.
  set (dest := init (Column [new_Element "Destination"; new_HorizontalLine;
                             colsrow] 0 0)) in *.
  set (src := init (Column scells 0 0)). set (sup := init (Column pcells 0 0)).
  assert (cells_column k (k + 2) src) as Hs.
  { exists scells. destruct Hscells as (? & ? & ?). split_and!; [done..| lia]. }
  assert (cells_column k (k + 2) sup) as Hp.
  { exists pcells. destruct Hpcells as (? & ? & ?). split_and!; [done..| lia]. }
  set (children := [new_VerticalLine; src; new_VerticalLine; dest;
                    new_VerticalLine; sup; new_VerticalLine]).
  set (row := init (Row children 0 0)).
  destruct (get_min_Row_7 new_VerticalLine src new_VerticalLine dest
              new_VerticalLine sup new_VerticalLine 0 0) as [_ Hrmh].
  destruct (cells_column_facts _ _ _ Hs) as ((_ & _ & Hsmh) & _).
  destruct (cells_column_facts _ _ _ Hp) as ((_ & _ & Hpmh) & _).
  change (get_min_height new_VerticalLine) with 0 in Hrmh.
  rewrite Hsmh, Hpmh, Hdmh, Hdh in Hrmh. fold children in Hrmh.
  set (hr := Z.max k (2 + hc)).
  assert (height row = hr) as Hrh by (subst row hr; rewrite height_init; lia).
  (* the lines of the three parts *)
  assert (∀ i : nat, Z.of_nat i < k + 2 →
            ∃ x, lines_of (set_height hr src) !! i = Some x ∧ Py.len x = width src)
    as Hsl.
  { intros i Hi. rewrite set_height_with_size.
    eapply rectangle_lookup; [| exact Hi].
    by apply (cells_column_lines k). }
  assert (∀ i : nat, Z.of_nat i < k + 2 →
            ∃ x, lines_of (set_height hr sup) !! i = Some x ∧ Py.len x = width sup)
    as Hpl.
  { intros i Hi. rewrite set_height_with_size.
    eapply rectangle_lookup; [| exact Hi].
    by apply (cells_column_lines k). }
  assert (lines_of (set_height hr dest) =
          [Py.center "Destination" (Z.max 13 W);
           Py.str_mul HORIZONTAL_DELIMITER (Z.max 13 W)]
          ++ lines_of (Row cols 0 hc)) as Hdl.
  { rewrite set_height_with_size, Hdw. unfold dest.
    rewrite lines_of_with_size_init_Column.
    cbn [fmap list_fmap concat]. rewrite app_nil_r.
    rewrite (set_width_with_size _ colsrow), Hch.
    unfold colsrow at 2. rewrite lines_of_with_size_init_Row.
    change (lines_of (set_width ?w new_HorizontalLine))
      with [Py.str_mul HORIZONTAL_DELIMITER (Z.max 0 w)].
    change (set_width ?w (new_Element "Destination"))
      with (Element "Destination" (Z.max 13 w) 1).
    rewrite lines_of_Element. cbn [Z.odd Z.div Z.to_nat replicate app].
    by rewrite !Z.max_r, (Z.max_r 0) by lia. }
  assert (∃ od, lines_of (set_height hr dest) !! 2%nat = od
                ∧ total_len (option_list od) = W) as (od & Hod & Hodlen).
  { rewrite Hdl. cbn [app lookup list_lookup].
    apply fits_rectangle in Hcf. rewrite Hcw in Hcf. fold W in Hcf.
    unfold colsrow in Hcf. rewrite lines_of_with_size_init_Row in Hcf.
    destruct cols as [|col cols'] eqn:Hc.
    - exists None. destruct Hcf as [Hlen _]. subst hc.
      destruct (lines_of (Row [] 0 0)); [done | simpl in Hlen; lia].
    - destruct (rectangle_lookup _ _ _ 0%nat Hcf ltac:(subst hc; lia))
        as (x & Hx & Hxlen).
      exists (Some x). split; [done |]. unfold total_len, total. simpl. lia. }
  destruct (Hsl 0%nat ltac:(lia)) as (a0 & Ha0 & Ha0len).
  destruct (Hpl 0%nat ltac:(lia)) as (b0 & Hb0 & Hb0len).
  destruct (Hsl 2%nat ltac:(lia)) as (a2 & Ha2 & Ha2len).
  destruct (Hpl 2%nat ltac:(lia)) as (b2 & Hb2 & Hb2len).
  pose proof (table_row_line src dest sup 0 hr 0%nat a0 b0 _
                ltac:(lia) Ha0 Hb0 eq_refl) as Hline0.
  pose proof (table_row_line src dest sup 0 hr 2%nat a2 b2 _
                ltac:(lia) Ha2 Hb2 Hod) as Hline2.
  rewrite Hdl in Hline0. cbn [app lookup list_lookup option_list] in Hline0.
  (* the lines of the table *)
  assert (lines_of (init (Column [new_HorizontalLine; row; new_HorizontalLine] 0 0))
          = lines_of (set_width (get_min_width
                (Column [new_HorizontalLine; row; new_HorizontalLine] 0 0))
              new_HorizontalLine)
            ++ lines_of (Row children 0 hr)
            ++ lines_of (set_width (get_min_width
                (Column [new_HorizontalLine; row; new_HorizontalLine] 0 0))
              new_HorizontalLine)) as Htl.
  { rewrite <- (with_size_id (init _)) at 1.
    rewrite lines_of_with_size_init_Column, width_init.
    cbn [fmap list_fmap concat]. rewrite app_nil_r.
    rewrite (set_width_with_size _ row), Hrh. unfold row.
    by rewrite lines_of_with_size_init_Row. }
  fold children row. rewrite Htl.
  change (lines_of (set_width ?w new_HorizontalLine))
    with [Py.str_mul HORIZONTAL_DELIMITER (Z.max 0 w)].
  cbn [app lookup list_lookup].
  eexists _, _. split_and!.
  - apply lookup_app_l_Some. exact Hline0.
  - apply lookup_app_l_Some. exact Hline2.
  - rewrite !len_str_concat. unfold total_len in *. rewrite !fmap_app, !total_app.
    rewrite Hodlen. unfold total, option_list.
    cbn [option_rect app fmap list_fmap foldr].
    rewrite len_center. change (Py.len "Destination") with 11.
    change (Py.len "|") with 1. lia.
Qed.

Lemma format_title_and_label_lines_witness :
  ∃ title labels,
    (lines_of <$> format IntegralFloat.str IntegralFloat.sum [7] [[1]] [5])
      ≫= (.!! 1%nat) = Some title
    ∧ (lines_of <$> format IntegralFloat.str IntegralFloat.sum [7] [[1]] [5])
      ≫= (.!! 3%nat) = Some labels
    ∧ Py.len title - Py.len labels = 8.
Proof.
  destruct (format IntegralFloat.str IntegralFloat.sum [7] [[1]] [5])
    as [table|] eqn:H; [| vm_compute in H; discriminate].
  destruct (mapM (_create_destination_column IntegralFloat.str [7] [[1]] [5])
              (Py.range (Z.of_nat (length [5]))))
    as [cols|] eqn:Hcols; [| vm_compute in Hcols; discriminate].
  destruct (format_title_and_label_lines _ _ _ _ _ _ _ H Hcols)
    as (title & labels & Htitle & Hlabels & Hlen).
  exists title, labels. split_and!; [exact Htitle | exact Hlabels |].
  rewrite Hlen. vm_compute in Hcols. apply (inj Some) in Hcols as <-.
  reflexivity.
Defined.

(** ** More on the blocks *)

(** X12. A freshly constructed [Element] formats to one line: its text
    with one space before it and one after it. *)
Theorem new_Element_lines (text : string) :
  lines_of (new_Element text) = [" " +:+ text +:+ " "].
Proof.
  change (new_Element text) with (Element text (Py.len text + 2) 1).
  rewrite lines_of_Element. cbn [Z.odd Z.div Z.to_nat replicate app].
  change (Z.to_nat (1 / 2)) with 0%nat. cbn [replicate app]. f_equal.
  assert (0 ≤ Py.len text) as Hlen by (unfold Py.len; lia).
  rewrite center_split by lia.
  assert (Py.center_left (Py.len text) (Py.len text + 2) = 1) as ->.
  { unfold Py.center_left. rewrite land_land_1.
    replace (Py.len text + 2 - Py.len text) with 2 by lia. done. }
  by replace (Py.len text + 2 - Py.len text - 1) with 1 by lia.
Qed.

(** X13. The size setters compose: two [set_width] calls are one with
    the larger argument (and so for [set_height]), a [set_width] and a
    [set_height] can be swapped, and widening or heightening a container
    before [add_block] gives the same container as doing it after. *)
Theorem set_size_compose (b block : Block) (a a' : Z) :
  (set_width a (set_width a' b) = set_width (Z.max a a') b
   ∧ set_height a (set_height a' b) = set_height (Z.max a a') b)
  ∧ set_width a (set_height a' b) = set_height a' (set_width a b)
  ∧ (add_block block (set_width a b) = set_width a <$> add_block block b
     ∧ add_block block (set_height a b) = set_height a <$> add_block block b).
Proof.
  split_and!.
  - destruct b; simpl; f_equal; lia.
  - destruct b; simpl; f_equal; lia.
  - by destruct b.
  - destruct b as [| | |bs w h|bs w h]; try done.
    + cbn [set_width]. rewrite !add_block_Column. cbn [fmap option_fmap option_map set_width].
      do 2 f_equal.
      change (get_min_width (Column (bs ++ [block]) (Z.max w a) h))
        with (get_min_width (Column (bs ++ [block]) w h)). lia.
    + cbn [set_width]. rewrite !add_block_Row. cbn [fmap option_fmap option_map set_width].
      do 2 f_equal.
      change (get_min_width (Row (bs ++ [block]) (Z.max w a) h))
        with (get_min_width (Row (bs ++ [block]) w h)). lia.
  - destruct b as [| | |bs w h|bs w h]; try done.
    + cbn [set_height]. rewrite !add_block_Column. cbn [fmap option_fmap option_map set_height].
      do 2 f_equal.
      change (get_min_height (Column (bs ++ [block]) w (Z.max h a)))
        with (get_min_height (Column (bs ++ [block]) w h)). lia.
    + cbn [set_height]. rewrite !add_block_Row. cbn [fmap option_fmap option_map set_height].
      do 2 f_equal.
      change (get_min_height (Row (bs ++ [block]) w (Z.max h a)))
        with (get_min_height (Row (bs ++ [block]) w h)). lia.
Qed.
